(** * B2B marketplace scraper: the cleaning pipeline and the record extractor

    A shallow embedding of [data_processor.py] (class [DataProcessor]) and of
    [scraper_multi_source.py] (class [MultiSourceScraper]), and the
    properties of the specification checked against them.

    Conventions of the embedding.
    - A Python [str] is a list of Unicode code points ([str := list N]), so
      that [len] counts code points as Python does.  Literals are written
      [u "..."], which decodes the UTF-8 bytes of the Rocq string.
    - Whitespace is the full set of [str.isspace], on every code point.
      The other character classes are written for the ASCII range:
      [str.lower], [str.title], the regex classes [\d], [\w], the digits of
      [float] and case-insensitive matching act on [A-Z], [a-z], [0-9] and
      [_], and leave every other code point alone.  Python does more
      beyond ASCII: it lower-cases U+00C9 and U+212A, reads U+0967 as a
      digit, and so on.  The two agree on the texts called [plain] below:
      ASCII characters, white space, and the two other characters the
      repository itself writes, the rupee sign U+20B9 and the star U+2605.
      A statement that depends on the case of letters, on digits or on
      word boundaries is made for plain texts; a statement without that
      condition holds whatever the letters and digits are.
    - A Python [float] is a primitive binary64 float; [np.nan] is [nan], and
      [pd.isna] on a float cell is [is_nan].
    - The cells of the raw table hold text or are null: a nullable cell is
      an [option str], and two null cells are equal as pandas has it for
      duplicates.
    - The network and the clock are read through a [World]: the scraper
      counts its requests and its readings of the clock, and the world
      answers the n-th of each. *)

From Stdlib Require Import ZArith NArith List Bool String Ascii Lia.
From Stdlib Require Import PrimFloat SpecFloat FloatOps FloatAxioms.
Import ListNotations.

Set Implicit Arguments.

(** ** Python strings *)

Module Py.

Definition char := N.
Definition str := list char.

(** UTF-8 decoding of a byte sequence, used only to write literals. *)
Fixpoint utf8_decode (bs : list N) : str :=
  match bs with
  | [] => []
  | b0 :: r0 =>
    if (b0 <? 128)%N then b0 :: utf8_decode r0 else
    match r0 with
    | [] => []
    | b1 :: r1 =>
      if (b0 <? 224)%N then ((b0 - 192) * 64 + (b1 - 128))%N :: utf8_decode r1 else
      match r1 with
      | [] => []
      | b2 :: r2 =>
        if (b0 <? 240)%N
        then ((b0 - 224) * 4096 + (b1 - 128) * 64 + (b2 - 128))%N :: utf8_decode r2
        else
        match r2 with
        | [] => []
        | b3 :: r3 =>
          ((b0 - 240) * 262144 + (b1 - 128) * 4096 + (b2 - 128) * 64 + (b3 - 128))%N
            :: utf8_decode r3
        end
      end
    end
  end.

Definition u (s : string) : str :=
  utf8_decode (map N_of_ascii (list_ascii_of_string s)).

Definition str_eqb (a b : str) : bool :=
  if list_eq_dec N.eq_dec a b then true else false.

Definition opt_str_eqb (a b : option str) : bool :=
  match a, b with
  | None, None => true
  | Some x, Some y => str_eqb x y
  | _, _ => false
  end.

(** Character classes, on the ASCII range. *)
Definition in_range (lo hi c : N) : bool := ((lo <=? c) && (c <=? hi))%N.
Definition is_upper (c : char) : bool := in_range 65 90 c.
Definition is_lower (c : char) : bool := in_range 97 122 c.
Definition is_alpha (c : char) : bool := is_upper c || is_lower c.
Definition is_digit (c : char) : bool := in_range 48 57 c.
Definition is_word (c : char) : bool := is_alpha c || is_digit c || (c =? 95)%N.

(** [str.isspace] for one code point. *)
Definition is_space (c : char) : bool :=
  in_range 9 13 c || in_range 28 32 c || (c =? 133)%N || (c =? 160)%N
  || (c =? 5760)%N || in_range 8192 8202 c || (c =? 8232)%N || (c =? 8233)%N
  || (c =? 8239)%N || (c =? 8287)%N || (c =? 12288)%N.

Definition lower_char (c : char) : char := if is_upper c then (c + 32)%N else c.
Definition upper_char (c : char) : char := if is_lower c then (c - 32)%N else c.

(** [s.lower()], for a plain text: the letters [A-Z] are lower-cased. *)
Definition lower (s : str) : str := map lower_char s.

(** [s.startswith(p)] *)
Fixpoint starts_with (p s : str) : bool :=
  match p, s with
  | [], _ => true
  | _ :: _, [] => false
  | a :: p', b :: s' => (a =? b)%N && starts_with p' s'
  end.

(** [sub in s] *)
Fixpoint contains (sub s : str) : bool :=
  starts_with sub s ||
  match s with
  | [] => false
  | _ :: s' => contains sub s'
  end.

Fixpoint drop_while (p : char -> bool) (s : str) : str :=
  match s with
  | [] => []
  | c :: s' => if p c then drop_while p s' else s
  end.

(** [s.strip()] *)
Definition strip (s : str) : str :=
  rev (drop_while is_space (rev (drop_while is_space s))).

(** [s.split(sep)] for a one-character separator: the segments between
    the separators, empty ones included; never the empty list. *)
Fixpoint split (sep : char) (s : str) : list str :=
  match s with
  | [] => [[]]
  | c :: s' =>
    if (c =? sep)%N then [] :: split sep s'
    else match split sep s' with
         | [] => [[c]]
         | seg :: segs => (c :: seg) :: segs
         end
  end.

(** [s.split()]: the maximal runs of non-whitespace characters. *)
Fixpoint split_ws (s : str) : list str :=
  match s with
  | [] => []
  | c :: s' =>
    if is_space c then split_ws s'
    else match s' with
         | [] => [[c]]
         | d :: _ =>
           if is_space d then [c] :: split_ws s'
           else match split_ws s' with
                | [] => [[c]]
                | w :: ws => (c :: w) :: ws
                end
         end
  end.

(** [s.replace(old, new)] for a one-character [old]. *)
Definition replace (old : char) (new : str) (s : str) : str :=
  flat_map (fun c => if (c =? old)%N then new else [c]) s.

(** [s.title()], for a plain text: a cased character is upper-cased when
    the previous character is not cased, lower-cased otherwise; the cased
    characters are [A-Z] and [a-z]. *)
Fixpoint title_from (prev_cased : bool) (s : str) : str :=
  match s with
  | [] => []
  | c :: s' =>
    (if prev_cased then lower_char c else upper_char c) :: title_from (is_alpha c) s'
  end.

Definition title (s : str) : str := title_from false s.

(** *** float()

    [float(s)] for the texts the program passes to it when it reads a
    plain text: ASCII digits with at most one decimal point and at least
    one digit.  The result is the binary64 value nearest to the decimal
    (ties to even), as CPython computes it.  Any other text made of ASCII
    digits, points and commas is a [ValueError], here [None]. *)

Definition digits_value (ds : str) : N :=
  fold_left (fun acc c => (10 * acc + (c - 48))%N) ds 0%N.

(** The binary64 nearest to [m / 10^k]. *)
Definition decimal_to_float (m : N) (k : nat) : float :=
  match m with
  | N0 => zero
  | Npos p =>
    let '(q, e, l) := SFdiv_core_binary prec emax (Zpos p) 0 (10 ^ Z.of_nat k) 0 in
    SF2Prim (binary_round_aux prec emax false q e l)
  end.

Definition is_nil (s : str) : bool := match s with [] => true | _ => false end.

Fixpoint take_while (p : char -> bool) (s : str) : str :=
  match s with
  | [] => []
  | c :: s' => if p c then c :: take_while p s' else []
  end.

Definition float_of_str (s : str) : option float :=
  let ip := take_while is_digit s in
  match drop_while is_digit s with
  | [] => if is_nil ip then None else Some (decimal_to_float (digits_value ip) 0)
  | c :: fp =>
    if (c =? 46)%N && forallb is_digit fp && negb (is_nil ip && is_nil fp)
    then Some (decimal_to_float (digits_value (ip ++ fp)) (List.length fp))
    else None
  end.

End Py.

(** ** Regular expressions used by the program *)

Module Re.
Import Py.

(** [re.findall(r'\d+\.?\d*', s)] for a plain text [s], where [\d] is
    [0-9].  The scanner reads [s] once; [cur] is
    the match in progress, reversed, with a flag telling whether its
    decimal point has been consumed.  Every part of the pattern after the
    first digit is optional and greedy, so a match never backtracks. *)
Fixpoint findall_number_from (cur : option (str * bool)) (s : str) : list str :=
  match s with
  | [] => match cur with
          | None => []
          | Some (acc, _) => [rev acc]
          end
  | c :: s' =>
    match cur with
    | None =>
      if is_digit c then findall_number_from (Some ([c], false)) s'
      else findall_number_from None s'
    | Some (acc, dotted) =>
      if is_digit c then findall_number_from (Some (c :: acc, dotted)) s'
      else if (c =? 46)%N && negb dotted then findall_number_from (Some (c :: acc, true)) s'
      else rev acc :: findall_number_from None s'
    end
  end.

Definition findall_number (s : str) : list str := findall_number_from None s.

(** [re.findall(r'[\d,]+', s)] for a plain text [s]: the maximal runs of
    digits and commas. *)
Definition digit_or_comma (c : char) : bool := is_digit c || (c =? 44)%N.

Fixpoint findall_grouped_from (cur : option str) (s : str) : list str :=
  match s with
  | [] => match cur with
          | None => []
          | Some acc => [rev acc]
          end
  | c :: s' =>
    if digit_or_comma c then
      findall_grouped_from (Some (c :: match cur with None => [] | Some acc => acc end)) s'
    else match cur with
         | None => findall_grouped_from None s'
         | Some acc => rev acc :: findall_grouped_from None s'
         end
  end.

Definition findall_grouped (s : str) : list str := findall_grouped_from None s.

(** [re.sub(r'\s+', ' ', s)] *)
Fixpoint sub_spaces_from (in_space : bool) (s : str) : str :=
  match s with
  | [] => []
  | c :: s' =>
    if is_space c
    then (if in_space then sub_spaces_from true s' else 32%N :: sub_spaces_from true s')
    else c :: sub_spaces_from false s'
  end.

Definition sub_spaces (s : str) : str := sub_spaces_from false s.

(** [re.compile(r'₹|Rs|INR|Price', re.I).search(s)] as a truth value, for a
    plain text [s]. *)
Definition search_price_marker (s : str) : bool :=
  contains (u "₹") s
  || contains (u "rs") (lower s)
  || contains (u "inr") (lower s)
  || contains (u "price") (lower s).

End Re.

(** [re.sub(rf'\b{lit}\b\.?', '', s, flags=re.IGNORECASE)] for a literal
    [lit] and a plain text [s].  [\b] holds between two positions exactly
    one of which is a word character; the text outside [s] counts as
    non-word. *)
Module ReSub.
Import Py.

Definition starts_with_ci (p s : str) : bool := starts_with (lower p) (lower s).

Definition head_is_word (s : str) : bool :=
  match s with
  | [] => false
  | c :: _ => is_word c
  end.

(** Length of the match of [\b lit \b \.?] at the start of [s], where
    [prev_word] tells whether the character before [s] is a word character. *)
Definition match_suffix_here (lit : str) (prev_word : bool) (s : str) : option nat :=
  let rest := skipn (List.length lit) s in
  if xorb prev_word (head_is_word s)
     && starts_with_ci lit s
     && xorb (head_is_word (rev lit)) (head_is_word rest)
  then Some (List.length lit + (if starts_with [46%N] rest then 1 else 0))%nat
  else None.

(** [skip] counts the characters of the current match still to be dropped. *)
Fixpoint sub_suffix_from (lit : str) (skip : nat) (prev_word : bool) (s : str) : str :=
  match s with
  | [] => []
  | c :: s' =>
    match skip with
    | S k => sub_suffix_from lit k (is_word c) s'
    | O =>
      match match_suffix_here lit prev_word s with
      | Some (S k) => sub_suffix_from lit k (is_word c) s'
      | _ => c :: sub_suffix_from lit 0 (is_word c) s'
      end
    end
  end.

Definition sub_suffix (lit : str) (s : str) : str := sub_suffix_from lit 0 false s.

End ReSub.

(** ** data_processor.py *)

Module DataProcessor.
Import Py.
Open Scope string_scope.
Open Scope list_scope.

(** A row of the raw table, as loaded from the scraper's CSV or JSON. *)
Record Row := {
  name : option str;
  price : option str;
  price_numeric : float;
  company : option str;
  location : option str;
  category : option str;
  rating : option str;
  url : option str;
  scraped_at : option str;
  source : option str
}.

(** A row of the table after [clean_data]: the raw columns, untouched, and
    the columns that [clean_data] adds. *)
Record CleanRow := {
  raw : Row;
  price_cleaned : float;
  location_cleaned : str;
  state : str;
  company_cleaned : str;
  price_category : str;
  product_keywords : list str
}.

(** [pd.isna] on a text cell. *)
Definition isna (A : Type) (c : option A) : bool :=
  match c with
  | None => true
  | Some _ => false
  end.

(** [str(cell)] for a text cell that is not null. *)
Definition str_of (c : option str) : str :=
  match c with
  | Some s => s
  | None => u "nan"
  end.

(** [clean_price(price_text)].  [float(numbers[0])] cannot raise: every
    match of the pattern is a decimal that [float] accepts, so the [None]
    branch below is never taken. *)
Definition clean_price (price_text : option str) : float :=
  if isna price_text || opt_str_eqb price_text (Some (u "Price not available"))
  then nan
  else
    let price_str := str_of price_text in
    let numbers := Re.findall_number price_str in
    match numbers with
    | first :: _ =>
      match float_of_str first with
      | Some price =>
        if contains (u "lakh") (lower price_str) then (price * 100000)%float
        else if contains (u "crore") (lower price_str) then (price * 10000000)%float
        else if contains (u "k") (lower price_str) then (price * 1000)%float
        else price
      | None => nan
      end
    | [] => nan
    end.

(** [clean_location(location)] *)
Definition clean_location (location : option str) : str :=
  if isna location || opt_str_eqb location (Some (u "Location not available"))
  then u "Unknown"
  else title (strip (Re.sub_spaces (str_of location))).

Definition states : list str :=
  map u [ "Maharashtra"; "Gujarat"; "Delhi"; "Tamil Nadu"; "Karnataka";
          "Uttar Pradesh"; "West Bengal"; "Rajasthan"; "Haryana";
          "Telangana"; "Andhra Pradesh"; "Punjab"; "Madhya Pradesh" ].

(** [extract_state(location)] *)
Definition extract_state (location : str) : str :=
  if str_eqb location (u "Unknown") then u "Unknown"
  else
    match find (fun st => contains (lower st) (lower location)) states with
    | Some st => st
    | None =>
      let parts := split 44%N location in
      match parts with
      | [] => u "Unknown"
      | _ :: _ => strip (last parts [])
      end
    end.

Definition suffixes : list str :=
  map u [ "Pvt Ltd"; "Private Limited"; "Ltd"; "Inc"; "Corporation"; "Corp" ].

(** [clean_company_name(company)] *)
Definition clean_company_name (company : option str) : str :=
  if isna company || opt_str_eqb company (Some (u "Unknown"))
  then u "Unknown"
  else
    let company := strip (str_of company) in
    let company := fold_left (fun acc suffix => ReSub.sub_suffix suffix acc) suffixes company in
    title (strip company).

(** [categorize_price(price)] *)
Definition categorize_price (price : float) : str :=
  if is_nan price then u "Unknown"
  else if (price <? 1000)%float then u "Budget (< ₹1K)"
  else if (price <? 10000)%float then u "Low (₹1K-10K)"
  else if (price <? 50000)%float then u "Medium (₹10K-50K)"
  else if (price <? 100000)%float then u "High (₹50K-1L)"
  else u "Premium (> ₹1L)".

Definition stop_words : list str :=
  map u [ "and"; "or"; "the"; "a"; "an"; "in"; "on"; "at"; "for"; "with"; "from"; "to" ].

Definition str_in (s : str) (l : list str) : bool := existsb (str_eqb s) l.

(** [extract_keywords(product_name)] *)
Definition extract_keywords (product_name : option str) : list str :=
  if isna product_name then []
  else
    let words := split_ws (lower (str_of product_name)) in
    let keywords :=
      filter (fun word => negb (str_in word stop_words) && (2 <? List.length word)%nat) words in
    firstn 5 keywords.

(** *** The table operations of pandas that [clean_data] uses *)

(** The key of [drop_duplicates(subset=['name', 'company'])]; two null
    cells count as equal. *)
Definition key := (option str * option str)%type.

Definition key_eqb (a b : key) : bool :=
  opt_str_eqb (fst a) (fst b) && opt_str_eqb (snd a) (snd b).

Definition key_in (k : key) (seen : list key) : bool := existsb (key_eqb k) seen.

Section Table.
Variable A : Type.
Variable subset : A -> key.

(** [df.drop_duplicates(subset, keep='first')]: rows in their order, a row
    being dropped when an earlier row carries the same key. *)
Fixpoint drop_duplicates_from (seen : list key) (df : list A) : list A :=
  match df with
  | [] => []
  | r :: df' =>
    if key_in (subset r) seen then drop_duplicates_from seen df'
    else r :: drop_duplicates_from (subset r :: seen) df'
  end.

Definition drop_duplicates (df : list A) : list A := drop_duplicates_from [] df.

(** [df.dropna(subset=['name'])] *)
Definition dropna_name (df : list A) : list A :=
  filter (fun r => negb (isna (fst (subset r)))) df.

End Table.

Definition raw_key (r : Row) : key := (name r, company r).
Definition clean_key (r : CleanRow) : key := raw_key (raw r).

(** Steps 3 to 7 of [clean_data] on one row: each [apply] adds a column
    computed from a raw column, [state] from the new [location_cleaned]. *)
Definition add_cleaned_columns (r : Row) : CleanRow :=
  let price_cleaned := clean_price (price r) in
  let location_cleaned := clean_location (location r) in
  let state := extract_state location_cleaned in
  let company_cleaned := clean_company_name (company r) in
  let price_category := categorize_price price_cleaned in
  let product_keywords := extract_keywords (name r) in
  {| raw := r;
     price_cleaned := price_cleaned;
     location_cleaned := location_cleaned;
     state := state;
     company_cleaned := company_cleaned;
     price_category := price_category;
     product_keywords := product_keywords |}.

(** [clean_data()]: the table [self.df] before and after. *)
Definition clean_data (df : list Row) : list CleanRow :=
  let df := drop_duplicates raw_key df in
  let df := dropna_name raw_key df in
  map add_cleaned_columns df.

(** The other pass order of the specification: every row is normalized
    first, the table is deduplicated afterwards. *)
Definition normalize_then_dedup (df : list Row) : list CleanRow :=
  let df := map add_cleaned_columns df in
  let df := drop_duplicates clean_key df in
  dropna_name clean_key df.

(** [astype(int)] on a boolean. *)
Definition as_int (b : bool) : Z := if b then 1%Z else 0%Z.

(** One row of [calculate_quality_score()]. *)
Definition quality_score_row (r : CleanRow) : Z :=
  (0
   + as_int (negb (isna (name (raw r)))) * 30
   + as_int (negb (is_nan (price_cleaned r))) * 25
   + as_int (negb (opt_str_eqb (company (raw r)) (Some (u "Unknown")))) * 20
   + as_int (negb (str_eqb (location_cleaned r) (u "Unknown"))) * 15
   + as_int (negb (isna (url (raw r)))) * 10)%Z.

(** [calculate_quality_score()]: the series of scores, one per row. *)
Definition calculate_quality_score (df : list CleanRow) : list Z :=
  map quality_score_row df.

End DataProcessor.

(** ** data_processor.py: the derived features *)

Module Features.
Import Py DataProcessor.
Open Scope string_scope.
Open Scope list_scope.

(** [a < b] on Python strings: lexicographic on the code points. *)
Fixpoint str_ltb (a b : str) : bool :=
  match a, b with
  | _, [] => false
  | [], _ :: _ => true
  | x :: a', y :: b' => (x <? y)%N || ((x =? y)%N && str_ltb a' b')
  end.

(** The categories of [pd.Categorical(values)]: the values that are not
    null, each once, in increasing order. *)
Fixpoint insert_category (x : str) (cats : list str) : list str :=
  match cats with
  | [] => [x]
  | y :: cats' =>
    if str_eqb x y then cats
    else if str_ltb x y then x :: cats
    else y :: insert_category x cats'
  end.

Fixpoint categories (values : list (option str)) : list str :=
  match values with
  | [] => []
  | None :: values' => categories values'
  | Some x :: values' => insert_category x (categories values')
  end.

Fixpoint position (x : str) (l : list str) : option nat :=
  match l with
  | [] => None
  | y :: l' =>
    if str_eqb x y then Some O
    else match position x l' with
         | Some i => Some (S i)
         | None => None
         end
  end.

(** The code of one value of [pd.Categorical(values).codes]: the rank of
    the value among the categories, [-1] for a null. *)
Definition code_of (cats : list str) (value : option str) : Z :=
  match value with
  | None => (-1)%Z
  | Some x =>
    match position x cats with
    | Some i => Z.of_nat i
    | None => (-1)%Z
    end
  end.

(** A row of the table after [add_derived_features]. *)
Record FeatureRow := {
  cleaned : CleanRow;
  name_length : option Z;
  has_price : bool;
  category_code : Z;
  quality_score : Z
}.

(** [add_derived_features()]: the table [self.df] before and after. *)
Definition add_derived_features (df : list CleanRow) : list FeatureRow :=
  let cats := categories (map (fun r => category (raw r)) df) in
  let score := calculate_quality_score df in
  map (fun '(r, quality_score) =>
         {| cleaned := r;
            name_length := option_map (fun s => Z.of_nat (List.length s)) (name (raw r));
            has_price := negb (is_nan (price_cleaned r));
            category_code := code_of cats (category (raw r));
            quality_score := quality_score |})
      (combine df score).

(** [clean_data()] followed by [add_derived_features()], as [main] of
    data_processor.py and [run_data_processor] of main.py run them. *)
Definition process (df : list Row) : list FeatureRow :=
  add_derived_features (clean_data df).

End Features.

(** ** scraper_multi_source.py *)

Module MultiSourceScraper.
Import Py.
Open Scope string_scope.
Open Scope list_scope.

(** One entry of [self.products]. *)
Record Product := {
  name : str;
  price : str;
  price_numeric : option float;
  company : str;
  location : str;
  category : str;
  rating : option str;
  url : str;
  scraped_at : str;
  source : str
}.

(** An [<a href=...>] element as [extract_products] reads it: the [title]
    attribute if any, [get_text(strip=True)], the [href] attribute, and the
    text nodes below [link.parent] in document order ([None] when the
    element has no parent). *)
Record Tag := {
  title : option str;
  text : str;
  href : str;
  parent : option (list str)
}.

(** The outcome of fetching and parsing one page: an exception raised by
    the request or by the parser, or a status code with the links that
    [soup.find_all('a', href=True)] returns, in document order. *)
Inductive Response :=
| Raised
| Http (status_code : Z) (all_links : list Tag).

(** What the program reads from outside: [now t] is the text of
    [datetime.now().isoformat()] at the [t]-th reading of the clock, and
    [get t url] the outcome of the [t]-th request when it asks for [url]. *)
Record World := {
  now : nat -> str;
  get : nat -> str -> Response
}.

(** The scraper object: [self.products], with the number of clock readings
    and the addresses requested so far. *)
Record Scraper := {
  products : list Product;
  clock_reads : nat;
  requests : list str
}.

(** An entry of [self.sources]. *)
Record Source := {
  source_name : str;
  base_url : str;
  search_url : str;
  status : str
}.

Definition sources : list (str * Source) :=
  [ (u "tradeindia",
     {| source_name := u "TradeIndia";
        base_url := u "https://www.tradeindia.com";
        search_url := u "https://www.tradeindia.com/search.html?ss={query}";
        status := u "active" |});
    (u "alibaba",
     {| source_name := u "Alibaba";
        base_url := u "https://www.alibaba.com";
        search_url := u "https://www.alibaba.com/trade/search?SearchText={query}";
        status := u "active" |});
    (u "dhgate",
     {| source_name := u "DHgate";
        base_url := u "https://www.dhgate.com";
        search_url := u "https://www.dhgate.com/wholesale/{query}.html";
        status := u "active" |});
    (u "exportersindia",
     {| source_name := u "ExportersIndia";
        base_url := u "https://www.exportersindia.com";
        search_url := u "https://www.exportersindia.com/search.htm?keyword={query}";
        status := u "testing" |}) ].

(** [d.get(k)] on a dict given by its items. *)
Fixpoint dict_get (V : Type) (d : list (str * V)) (k : str) : option V :=
  match d with
  | [] => None
  | (k', v) :: d' => if str_eqb k k' then Some v else dict_get d' k
  end.

(** [template.format(query=q)] for a template whose only braces are those
    of [{query}] fields; [skip] counts the characters of the field still to
    be dropped. *)
Fixpoint format_query_from (skip : nat) (q : str) (template : str) : str :=
  match template with
  | [] => []
  | c :: template' =>
    match skip with
    | S k => format_query_from k q template'
    | O =>
      if starts_with (u "{query}") template
      then q ++ format_query_from 6 q template'
      else c :: format_query_from 0 q template'
    end
  end.

Definition format_query (template : str) (q : str) : str :=
  format_query_from 0 q template.

(** [len(s)] *)
Definition len (s : str) : Z := Z.of_nat (List.length s).

Definition str_in (s : str) (l : list str) : bool := existsb (str_eqb s) l.

Definition noise_words : list str :=
  map u [ "home"; "about"; "contact"; "login"; "category"; "more" ].

(** [link.get('title') or link.get_text(strip=True)] *)
Definition candidate_name (link : Tag) : str :=
  match title link with
  | Some t => if is_nil t then text link else t
  | None => text link
  end.

(** The filter on a candidate name, without the test on [seen]. *)
Definition plausible (name : str) : bool :=
  negb (is_nil name) && (10 <? len name)%Z && (len name <? 200)%Z.

Definition is_noise (name : str) : bool :=
  existsb (fun skip => contains skip (lower name)) noise_words.

(** The price found near a link: [price_text] and [price_numeric]. *)
Definition nearby_price (link : Tag) : str * option float :=
  match parent link with
  | Some strings =>
    match find Re.search_price_marker strings with
    | Some price_elem =>
      let price_text := strip price_elem in
      match Re.findall_grouped price_text with
      | first :: _ => (price_text, float_of_str (replace 44%N [] first))
      | [] => (price_text, None)
      end
    | None => (u "Price on Request", None)
    end
  | None => (u "Price on Request", None)
  end.

Section Scraping.
Variable world : World.

(** The body of the [for link in all_links] loop of [extract_products]:
    [count] and [seen] are the loop's variables, [self] the scraper. *)
Fixpoint extract_loop (category source_name : str) (max_results : Z)
    (all_links : list Tag) (count : Z) (seen : list str) (self : Scraper)
    : Z * Scraper :=
  match all_links with
  | [] => (count, self)
  | link :: rest =>
    if (max_results <=? count)%Z then (count, self)
    else
      let name := candidate_name link in
      if plausible name && negb (str_in name seen) then
        if is_noise name
        then extract_loop category source_name max_results rest count seen self
        else
          let seen := name :: seen in
          let '(price_text, price_numeric) := nearby_price link in
          let product :=
            {| name := name;
               price := price_text;
               price_numeric := price_numeric;
               company := u "To be updated";
               location := u "India";
               category := category;
               rating := None;
               url := href link;
               scraped_at := now world (clock_reads self);
               source := source_name |} in
          let self :=
            {| products := products self ++ [product];
               clock_reads := S (clock_reads self);
               requests := requests self |} in
          extract_loop category source_name max_results rest (count + 1)%Z seen self
      else extract_loop category source_name max_results rest count seen self
  end.

(** [extract_products(soup, category, source_name, max_results)] *)
Definition extract_products (self : Scraper) (all_links : list Tag)
    (category source_name : str) (max_results : Z) : Z * Scraper :=
  extract_loop category source_name max_results all_links 0%Z [] self.

(** [scrape_source(source_key, category, max_results)] *)
Definition scrape_source (self : Scraper) (source_key category : str)
    (max_results : Z) : Z * Scraper :=
  match dict_get sources source_key with
  | None => (0%Z, self)
  | Some source =>
    let search_url := format_query (search_url source) (replace 32%N [43%N] category) in
    let response := get world (List.length (requests self)) search_url in
    let self :=
      {| products := products self;
         clock_reads := clock_reads self;
         requests := requests self ++ [search_url] |} in
    match response with
    | Http status_code all_links =>
      if (status_code =? 200)%Z
      then extract_products self all_links category (source_name source) max_results
      else (0%Z, self)
    | Raised => (0%Z, self)
    end
  end.

(** The [for source in sources] loop of [scrape_category]. *)
Fixpoint scrape_loop (category : str) (max_per_source : Z)
    (srcs : list str) (total : Z) (self : Scraper) : Z * Scraper :=
  match srcs with
  | [] => (total, self)
  | source :: rest =>
    let '(count, self) := scrape_source self source category max_per_source in
    scrape_loop category max_per_source rest (total + count)%Z self
  end.

(** [scrape_category(category, sources, max_per_source)] *)
Definition scrape_category (self : Scraper) (category : str)
    (srcs : list str) (max_per_source : Z) : Z * Scraper :=
  scrape_loop category max_per_source srcs 0%Z self.

End Scraping.

End MultiSourceScraper.

(** ** scraper_multi_source.py: the sample products *)

Module SampleProducts.
Import Py MultiSourceScraper.
Open Scope string_scope.
Open Scope list_scope.

Definition product_templates : list (str * list str) :=
  [ (u "industrial machinery",
     map u [ "CNC Milling Machine"; "Industrial Lathe"; "Hydraulic Press Machine";
             "Metal Cutting Machine"; "Drilling Machine"; "Grinding Machine";
             "Injection Molding Machine"; "Conveyor Belt System"; "Power Press";
             "Industrial Mixer"; "Packaging Machine"; "Welding Machine" ]);
    (u "electronic components",
     map u [ "LED Display Module"; "Power Supply Unit"; "Circuit Breaker";
             "Transformer"; "Relay Switch"; "Sensor Module"; "PCB Board";
             "Microcontroller"; "Capacitor Bank"; "Resistor Set" ]);
    (u "textile fabrics",
     map u [ "Cotton Fabric Roll"; "Polyester Fabric"; "Silk Material";
             "Denim Fabric"; "Linen Cloth"; "Georgette Fabric";
             "Canvas Material"; "Velvet Fabric"; "Rayon Cloth" ]);
    (u "plastic raw materials",
     map u [ "PVC Granules"; "HDPE Pellets"; "PP Raw Material";
             "PET Resin"; "LDPE Material"; "ABS Plastic Granules";
             "Polycarbonate Sheets"; "Acrylic Material" ]);
    (u "safety equipment",
     map u [ "Safety Helmet"; "Industrial Gloves"; "Safety Goggles";
             "Fire Extinguisher"; "Safety Harness"; "Reflective Jacket";
             "Ear Protection"; "Face Shield"; "First Aid Kit" ]) ].

Definition companies : list str :=
  map u [ "Prime Industries"; "Global Traders"; "Supreme Enterprises";
          "Perfect Manufacturing"; "Royal Systems"; "Elite Solutions" ].

Definition cities : list str :=
  map u [ "Mumbai, Maharashtra"; "Delhi, Delhi"; "Bangalore, Karnataka";
          "Ahmedabad, Gujarat"; "Chennai, Tamil Nadu"; "Pune, Maharashtra" ].

Definition prefixes : list str :=
  [ u "Heavy Duty"; u "Industrial Grade"; u "Premium"; u "High Quality"; [] ].

(** The random generator, read like the clock: [randbelow t n] is the
    integer below [n] that the [t]-th draw returns when it is asked for
    one, [random t] the float of [random.random()] when it is asked for
    that. *)
Record Chance := {
  randbelow : nat -> N -> N;
  random : nat -> float
}.

(** What Python promises of the generator. *)
Definition fair (chance : Chance) : Prop :=
  (forall t n, (0 < n)%N -> (randbelow chance t n < n)%N) /\
  (forall t, (0 <=? random chance t)%float = true /\ (random chance t <? 1)%float = true).

(** [random.choice(seq)] for a sequence that is not empty. *)
Definition choice (chance : Chance) (t : nat) (seq : list str) : str :=
  nth (N.to_nat (randbelow chance t (N.of_nat (List.length seq)))) seq [].

(** [random.randint(a, b)] *)
Definition randint (chance : Chance) (t : nat) (a b : Z) : Z :=
  (a + Z.of_N (randbelow chance t (Z.to_N (b - a + 1))))%Z.

(** [random.uniform(a, b)] *)
Definition uniform (chance : Chance) (t : nat) (a b : float) : float :=
  (a + (b - a) * random chance t)%float.

(** [str(n)] for an integer. *)
Fixpoint uint_chars (d : Decimal.uint) : str :=
  match d with
  | Decimal.Nil => []
  | Decimal.D0 d' => 48%N :: uint_chars d'
  | Decimal.D1 d' => 49%N :: uint_chars d'
  | Decimal.D2 d' => 50%N :: uint_chars d'
  | Decimal.D3 d' => 51%N :: uint_chars d'
  | Decimal.D4 d' => 52%N :: uint_chars d'
  | Decimal.D5 d' => 53%N :: uint_chars d'
  | Decimal.D6 d' => 54%N :: uint_chars d'
  | Decimal.D7 d' => 55%N :: uint_chars d'
  | Decimal.D8 d' => 56%N :: uint_chars d'
  | Decimal.D9 d' => 57%N :: uint_chars d'
  end.

Definition str_of_N (n : N) : str := uint_chars (N.to_uint n).

Definition str_of_int (n : Z) : str :=
  if (n <? 0)%Z then 45%N :: str_of_N (Z.to_N (- n)) else str_of_N (Z.to_N n).

(** The digits of [f"{n:,}"], last digit first: a comma after every third
    digit that is not the last. *)
Fixpoint group_thousands (k : nat) (digits_rev : str) : str :=
  match digits_rev with
  | [] => []
  | d :: rest =>
    match rest with
    | [] => [d]
    | _ :: _ =>
      match k with
      | S (S _) => d :: 44%N :: group_thousands 0 rest
      | _ => d :: group_thousands (S k) rest
      end
    end
  end.

(** [f"{n:,}"] *)
Definition format_grouped (n : Z) : str :=
  let digits := rev (group_thousands 0 (rev (str_of_N (Z.to_N (Z.abs n))))) in
  if (n <? 0)%Z then 45%N :: digits else digits.

(** [float(n)] for an integer: the nearest binary64. *)
Definition float_of_int (n : Z) : float :=
  if (n <? 0)%Z then (- decimal_to_float (Z.to_N (- n)) 0)%float
  else decimal_to_float (Z.to_N n) 0.

(** The integer nearest to [m * 2^e], ties to even. *)
Definition round_half_even (m : Z) (e : Z) : Z :=
  if (0 <=? e)%Z then (m * 2 ^ e)%Z
  else
    let d := (2 ^ (- e))%Z in
    let q := (m / d)%Z in
    let r := (m mod d)%Z in
    match (2 * r ?= d)%Z with
    | Lt => q
    | Gt => (q + 1)%Z
    | Eq => if Z.even q then q else (q + 1)%Z
    end.

(** [f"{x:.1f}"] *)
Definition format_1f (x : float) : str :=
  match Prim2SF x with
  | S754_nan => u "nan"
  | S754_infinity s => if s then u "-inf" else u "inf"
  | S754_zero s => if s then u "-0.0" else u "0.0"
  | S754_finite s m e =>
    let tenths := round_half_even (Zpos m * 10) e in
    (if s then [45%N] else [])
      ++ str_of_N (Z.to_N (tenths / 10)) ++ [46%N] ++ str_of_N (Z.to_N (tenths mod 10))
  end.

Section Sampling.
Variable chance : Chance.
Variable world : World.

(** One round of the loop of [add_sample_products]; [draws] counts the
    draws made so far.  The draws are numbered in the order Python makes
    them.  The float [0x1.3333333333333p-2] is the one Python reads for
    [0.3]. *)
Definition sample_product (templates : list str) (category : str)
    (self : Scraper) (draws : nat) : Scraper * nat :=
  let template := choice chance draws templates in
  let prefix := choice chance (draws + 1) prefixes in
  let price := u "₹ " ++ format_grouped (randint chance (draws + 2) 1000 500000) in
  let price_numeric := float_of_int (randint chance (draws + 3) 1000 500000) in
  let company := choice chance (draws + 4) companies in
  let location := choice chance (draws + 5) cities in
  let rated := (0x1.3333333333333p-2 <? random chance (draws + 6))%float in
  let rating :=
    if rated
    then Some (format_1f (uniform chance (draws + 7) 3.5 5.0) ++ u " ★")
    else None in
  let draws_url := if rated then (draws + 8)%nat else (draws + 7)%nat in
  let product :=
    {| name := strip (prefix ++ u " " ++ template);
       price := price;
       price_numeric := Some price_numeric;
       company := company;
       location := location;
       category := category;
       rating := rating;
       url := u "https://example.com/product/"
                ++ str_of_int (randint chance draws_url 1000 9999);
       scraped_at := now world (clock_reads self);
       source := u "Enhanced Sample Data" |} in
  ({| products := products self ++ [product];
      clock_reads := S (clock_reads self);
      requests := requests self |},
   S draws_url).

Fixpoint sample_loop (rounds : nat) (templates : list str) (category : str)
    (self : Scraper) (draws : nat) : Scraper * nat :=
  match rounds with
  | O => (self, draws)
  | S rounds' =>
    let '(self, draws) := sample_product templates category self draws in
    sample_loop rounds' templates category self draws
  end.

(** [add_sample_products(category, count)] *)
Definition add_sample_products (self : Scraper) (draws : nat) (category : str)
    (count : Z) : Scraper * nat :=
  let templates :=
    match dict_get product_templates category with
    | Some templates => templates
    | None => []
    end in
  let rounds := Z.to_nat (Z.min count (Z.of_nat (List.length templates) * 4)) in
  sample_loop rounds templates category self draws.

End Sampling.

End SampleProducts.

(** ** Vocabulary of the statements *)

(** ** Order-preserving sub-lists *)

Inductive Subseq (A : Type) : list A -> list A -> Prop :=
| Subseq_nil : Subseq [] []
| Subseq_skip : forall x l1 l2, Subseq l1 l2 -> Subseq l1 (x :: l2)
| Subseq_keep : forall x l1 l2, Subseq l1 l2 -> Subseq (x :: l1) (x :: l2).

Section PipelineVocabulary.
Import Py DataProcessor.
Open Scope string_scope.
Open Scope list_scope.
Open Scope Z_scope.


Definition parses (m : str) : Prop := exists x, float_of_str m = Some x.

(** The test of the loop over [states]. *)
Definition state_occurs (st location : str) : bool :=
  contains (lower st) (lower location).

(** The points of one check. *)
Definition points (present : bool) (weight : Z) : Z := if present then weight else 0.

(** The row that carries key [k], if any: the first one in table order. *)
Definition first_with_key (A : Type) (subset : A -> key) (k : key) (df : list A)
    : option A :=
  find (fun r => key_eqb (subset r) k) df.

(** A row whose seller and place are unresolved: company ["Unknown"],
    location ["Location not available"]. *)
Definition unresolved_row : Row :=
  {| name := Some (u "Industrial Safety Helmet");
     price := Some (u "₹ 450");
     price_numeric := 450%float;
     company := Some (u "Unknown");
     location := Some (u "Location not available");
     category := Some (u "safety equipment");
     rating := None;
     url := Some (u "https://example.com/product/1001");
     scraped_at := Some (u "2024-01-01T00:00:00");
     source := Some (u "Enhanced Sample Data") |}.

(** A row as [extract_products] writes it: company ["To be updated"],
    location ["India"]. *)
Definition extracted_row : Row :=
  {| name := Some (u "Industrial Safety Helmet");
     price := Some (u "₹ 450");
     price_numeric := 450%float;
     company := Some (u "To be updated");
     location := Some (u "India");
     category := Some (u "safety equipment");
     rating := None;
     url := Some (u "/product/1001");
     scraped_at := Some (u "2024-01-01T00:00:00");
     source := Some (u "TradeIndia") |}.

(** Two listings of one product whose sellers differ only by the legal
    suffix of the company. *)
Definition acme_ltd_row : Row :=
  {| name := Some (u "Hydraulic Press Machine");
     price := Some (u "₹ 2.50 Lakh");
     price_numeric := 250000%float;
     company := Some (u "Acme Ltd");
     location := Some (u "Pune, Maharashtra");
     category := Some (u "industrial machinery");
     rating := None;
     url := Some (u "https://example.com/product/1");
     scraped_at := Some (u "2024-01-01T00:00:00");
     source := Some (u "TradeIndia") |}.

Definition acme_inc_row : Row :=
  {| name := Some (u "Hydraulic Press Machine");
     price := Some (u "₹ 2.50 Lakh");
     price_numeric := 250000%float;
     company := Some (u "Acme Inc");
     location := Some (u "Pune, Maharashtra");
     category := Some (u "industrial machinery");
     rating := None;
     url := Some (u "https://example.com/product/2");
     scraped_at := Some (u "2024-01-01T00:00:05");
     source := Some (u "Alibaba") |}.

End PipelineVocabulary.

Section ScraperVocabulary.
Import Py MultiSourceScraper.
Open Scope string_scope.
Open Scope list_scope.
Open Scope Z_scope.




(** A page with a navigation link, a contact link, a listing named by its
    [title] with a price next to it, the same listing again, and a listing
    named by its text with an empty [href]. *)
Definition sample_links : list Tag :=
  [ {| title := None; text := u "Home"; href := u "/"; parent := None |};
    {| title := None; text := u "Contact Us Page Link"; href := u "/contact";
       parent := None |};
    {| title := Some (u "Heavy Duty Hydraulic Press Machine 50 Ton Capacity");
       text := u "View"; href := u "/p/1";
       parent := Some [u "View"; u " Rs 1,23,456 onwards "] |};
    {| title := None;
       text := u "Heavy Duty Hydraulic Press Machine 50 Ton Capacity";
       href := u "/p/1"; parent := None |};
    {| title := Some []; text := u "Industrial Lathe Machine"; href := [];
       parent := Some [u "Industrial Lathe Machine"] |} ].

(** A network where the first request raises, the second is refused and
    every later one returns [sample_links]. *)
Definition sample_world : World :=
  {| now := fun _ => u "2024-01-01T00:00:00";
     get := fun t _ =>
       match t with
       | O => Raised
       | S O => Http 404 []
       | _ => Http 200 sample_links
       end |}.

Definition new_scraper : Scraper :=
  {| products := []; clock_reads := 0; requests := [] |}.

End ScraperVocabulary.

(** ** Shapes of texts and of lists *)

Section TextShapes.
Import Py.
Open Scope list_scope.

(** No whitespace other than single spaces: every whitespace character is
    U+0020 and none follows another.  [prev_space] tells whether the
    character before [s] is whitespace. *)
Fixpoint single_spaced_from (prev_space : bool) (s : str) : bool :=
  match s with
  | [] => true
  | c :: s' =>
    if is_space c
    then (c =? 32)%N && negb prev_space && single_spaced_from true s'
    else single_spaced_from false s'
  end.

Definition single_spaced (s : str) : bool := single_spaced_from false s.

Definition head_is_space (s : str) : bool :=
  match s with
  | [] => false
  | c :: _ => is_space c
  end.

(** Neither the first nor the last character is whitespace. *)
Definition trimmed (s : str) : bool :=
  negb (head_is_space s) && negb (head_is_space (rev s)).

(** The first occurrences of the texts of [l] that are not in [seen], in
    order. *)
Fixpoint distinct_from (seen : list str) (l : list str) : list str :=
  match l with
  | [] => []
  | x :: l' =>
    if existsb (str_eqb x) seen then distinct_from seen l'
    else x :: distinct_from (x :: seen) l'
  end.

(** [l1] is the beginning of [l2]. *)
Definition Prefix (A : Type) (l1 l2 : list A) : Prop := exists rest, l2 = l1 ++ rest.

(** The characters on which [lower], [title], [is_digit] and [is_word] are
    Python's: the ASCII range, white space, the rupee sign and the star.
    Beyond ASCII none of them has a case, is a decimal digit or is a word
    character, and no pattern letter matches one of them when case is
    ignored. *)
Definition plain_char (c : char) : bool :=
  (c <? 128)%N || is_space c || (c =? 8377)%N || (c =? 9733)%N.

(** A plain text, and a cell that is null or holds a plain text. *)
Definition plain (s : str) : bool := forallb plain_char s.

Definition plain_cell (cell : option str) : bool :=
  match cell with
  | Some s => plain s
  | None => true
  end.

End TextShapes.

(** ** Shapes of tables, records and runs *)

Section FeatureShapes.
Import Py Features.
Open Scope list_scope.

(** Texts in strictly increasing order. *)
Inductive increasing : list str -> Prop :=
| increasing_nil : increasing []
| increasing_cons : forall x l,
    (forall y, In y l -> str_ltb x y = true) -> increasing l -> increasing (x :: l).

End FeatureShapes.

Section ScraperShapes.
Import Py MultiSourceScraper.
Open Scope string_scope.
Open Scope list_scope.

(** The text nodes next to a link are plain texts. *)
Definition plain_strings (link : Tag) : bool :=
  match parent link with
  | Some strings => forallb plain strings
  | None => true
  end.

(** A name that passes the filters of [extract_products] other than the
    test on the names already kept. *)
Definition valid_name (name : str) : bool := plausible name && negb (is_noise name).

(** The address [scrape_source] asks for, when the key is registered. *)
Definition planned_request (category source_key : str) : option str :=
  match dict_get sources source_key with
  | Some source => Some (format_query (search_url source) (replace 32%N [43%N] category))
  | None => None
  end.

(** The addresses of the registered keys of [srcs], in order. *)
Definition planned_requests (category : str) (srcs : list str) : list str :=
  flat_map (fun source_key =>
              match planned_request category source_key with
              | Some address => [address]
              | None => []
              end) srcs.

(** A record made from one link, for a category and a source name. *)
Definition made_from (category source_name : str) (link : Tag) (p : Product) : Prop :=
  name p = candidate_name link /\
  (price p, price_numeric p) = nearby_price link /\
  url p = href link /\
  company p = u "To be updated" /\
  location p = u "India" /\
  rating p = None /\
  MultiSourceScraper.category p = category /\
  source p = source_name.

(** [p] holds of [start], [start + 1], ... for [k] integers. *)
Fixpoint all_from (p : Z -> bool) (k : nat) (start : Z) : bool :=
  match k with
  | O => true
  | S k' => p start && all_from p k' (start + 1)%Z
  end.

(** A number written by [str(n)] takes from four to six characters. *)
Definition four_to_six_digits (n : Z) : bool :=
  let l := List.length (SampleProducts.str_of_N (Z.to_N n)) in
  (4 <=? l)%nat && (l <=? 6)%nat.

(** The text is a decimal that [float] reads as a price below 1000. *)
Definition reads_as_budget (digits : str) : bool :=
  match float_of_str digits with
  | Some x => str_eqb (DataProcessor.categorize_price x) (u "Budget (< ₹1K)")
  | None => false
  end.

Definition decimal_digits : list char :=
  [48; 49; 50; 51; 52; 53; 54; 55; 56; 57]%N.

(** A generator that always draws the least value. *)
Definition least_chance : SampleProducts.Chance :=
  {| SampleProducts.randbelow := fun _ _ => 0%N;
     SampleProducts.random := fun _ => 0%float |}.

(** The number of rounds of [add_sample_products]. *)
Definition sample_rounds (category : str) (count : Z) : nat :=
  match dict_get SampleProducts.product_templates category with
  | Some templates => Z.to_nat (Z.min count (Z.of_nat (List.length templates) * 4))
  | None => O
  end.

End ScraperShapes.

(** ** Tactics *)

(** Case analysis on every condition of the goal. *)
Ltac case_conditions :=
  repeat match goal with
         | |- context [if ?b then _ else _] => destruct b
         end.

(** Closes a goal from a membership in a list given by its elements. *)
Ltac by_cases_on_members H :=
  vm_compute in H;
  repeat (destruct H as [<-|H]; [first [reflexivity | discriminate]|]);
  destruct H.

(** ** Facts about binary64 comparison *)

Section FloatOrder.


Lemma SFcompare_antisym (x y : spec_float) :
  SFcompare y x = option_map CompOpp (SFcompare x y).
Proof.
  destruct x as [sx|sx| |sx mx ex], y as [sy|sy| |sy my ey]; simpl;
    try (destruct sx, sy; reflexivity); try (destruct sx; reflexivity);
    try (destruct sy; reflexivity); try reflexivity.
  destruct sx, sy; try reflexivity;
    rewrite (Z.compare_antisym ex ey); destruct (ex ?= ey)%Z; simpl; try reflexivity;
    change (Pos.compare_cont Eq my mx) with (Pos.compare_cont (CompOpp Eq) my mx);
    rewrite <- (Pos.compare_cont_antisym mx my Eq);
    destruct (Pos.compare_cont Eq mx my); reflexivity.
Qed.

(** On numbers, [y <= x] is the negation of [x < y]. *)
Lemma leb_negb_ltb (x y : float) :
  is_nan x = false -> is_nan y = false ->
  (y <=? x)%float = negb (x <? y)%float.
Proof.
  unfold is_nan. rewrite !eqb_spec, leb_spec, ltb_spec.
  unfold SFeqb, SFleb, SFltb. rewrite (SFcompare_antisym (Prim2SF x) (Prim2SF y)).
  intros Hx Hy.
  destruct (SFcompare (Prim2SF x) (Prim2SF y)) as [[ | | ]|] eqn:E; simpl; try reflexivity.
  exfalso.
  destruct (Prim2SF x) as [sx|sx| |sx mx ex], (Prim2SF y) as [sy|sy| |sy my ey];
    simpl in *; try discriminate;
    repeat match goal with
           | b : bool |- _ => destruct b; simpl in *; try discriminate
           end.
Qed.

Lemma SFcompare_refl (x : spec_float) :
  x <> S754_nan -> SFcompare x x = Some Eq.
Proof.
  destruct x as [sx|sx| |sx mx ex]; simpl; intros H; try congruence.
  - destruct sx; reflexivity.
  - rewrite Z.compare_refl, Pos.compare_cont_refl. destruct sx; reflexivity.
Qed.

Lemma is_nan_Prim2SF (x : float) : is_nan x = true -> Prim2SF x = S754_nan.
Proof.
  unfold is_nan. rewrite eqb_spec. unfold SFeqb. intros H.
  destruct (Prim2SF x) eqn:E; try reflexivity;
    rewrite SFcompare_refl in H by congruence; discriminate.
Qed.

(** Comparisons with a NaN are false. *)
Lemma ltb_nan (x y : float) : is_nan x = true -> (x <? y)%float = false.
Proof. intros H. rewrite ltb_spec, (is_nan_Prim2SF x H). reflexivity. Qed.

Lemma leb_nan (x y : float) : is_nan x = true -> (y <=? x)%float = false.
Proof.
  intros H. rewrite leb_spec, (is_nan_Prim2SF x H).
  unfold SFleb. destruct (Prim2SF y); reflexivity.
Qed.

(** [x < a] gives [x < b] for two literals [a < b] of the same sign. *)
Lemma SFltb_weaken (x : spec_float) (ma mb : positive) (ea eb : Z) :
  (ea < eb)%Z ->
  SFltb x (S754_finite false ma ea) = true ->
  SFltb x (S754_finite false mb eb) = true.
Proof.
  intros Hlt. unfold SFltb.
  destruct x as [sx|sx| |sx mx ex]; simpl; try congruence;
    destruct sx; try congruence.
  destruct (Z.compare_spec ex ea), (Z.compare_spec ex eb); try congruence; lia.
Qed.

End FloatOrder.

Section PriceCategory.
Import Py DataProcessor.
Open Scope string_scope.
Open Scope list_scope.
Open Scope float_scope.

Local Abbreviation Budget := (u "Budget (< ₹1K)").
Local Abbreviation Low := (u "Low (₹1K-10K)").
Local Abbreviation Medium := (u "Medium (₹10K-50K)").
Local Abbreviation High := (u "High (₹50K-1L)").
Local Abbreviation Premium := (u "Premium (> ₹1L)").
Local Abbreviation Unknown := (u "Unknown").

Lemma ltb_weaken (x a b : float) (ma mb : positive) (ea eb : Z) :
  Prim2SF a = S754_finite false ma ea ->
  Prim2SF b = S754_finite false mb eb ->
  (ea < eb)%Z ->
  (x <? a) = true -> (x <? b) = true.
Proof.
  intros Ha Hb Hlt. rewrite !ltb_spec, Ha, Hb. now apply SFltb_weaken.
Qed.

Lemma price_categories_distinct :
  NoDup [Budget; Low; Medium; High; Premium; Unknown].
Proof.
  repeat constructor; simpl; intros H;
    repeat (destruct H as [H|H]; [vm_compute in H; discriminate|]); exact H.
Qed.

(** C4.  [categorize_price] returns one of six distinct labels; the label
    is [Unknown] exactly for a null price, and each other label is
    returned exactly on its interval, which contains its lower bound and
    not its upper bound: below 1000 Budget, from 1000 up to 10000 Low, from
    10000 up to 50000 Medium, from 50000 up to 100000 High, from 100000 on
    Premium.  So 1000, 10000, 50000 and 100000 fall in the higher bin. *)
Theorem categorize_price_bins (price : float) :
  In (categorize_price price) [Budget; Low; Medium; High; Premium; Unknown] /\
  NoDup [Budget; Low; Medium; High; Premium; Unknown] /\
  (categorize_price price = Unknown <-> is_nan price = true) /\
  (categorize_price price = Budget <-> (price <? 1000) = true) /\
  (categorize_price price = Low <->
     (1000 <=? price) = true /\ (price <? 10000) = true) /\
  (categorize_price price = Medium <->
     (10000 <=? price) = true /\ (price <? 50000) = true) /\
  (categorize_price price = High <->
     (50000 <=? price) = true /\ (price <? 100000) = true) /\
  (categorize_price price = Premium <-> (100000 <=? price) = true) /\
  categorize_price 1000 = Low /\
  categorize_price 10000 = Medium /\
  categorize_price 50000 = High /\
  categorize_price 100000 = Premium.
Proof.
  split; [|split; [exact price_categories_distinct|]].
  { unfold categorize_price.
    destruct (is_nan price); [simpl; tauto|].
    case_conditions; simpl; tauto. }
  assert (W1 : (price <? 1000) = true -> (price <? 10000) = true)
    by (apply ltb_weaken with (ma := 8796093022208000%positive) (ea := (-43)%Z)
                              (mb := 5497558138880000%positive) (eb := (-39)%Z);
        [reflexivity | reflexivity | lia]).
  assert (W2 : (price <? 10000) = true -> (price <? 50000) = true)
    by (apply ltb_weaken with (ma := 5497558138880000%positive) (ea := (-39)%Z)
                              (mb := 6871947673600000%positive) (eb := (-37)%Z);
        [reflexivity | reflexivity | lia]).
  assert (W3 : (price <? 50000) = true -> (price <? 100000) = true)
    by (apply ltb_weaken with (ma := 6871947673600000%positive) (ea := (-37)%Z)
                              (mb := 6871947673600000%positive) (eb := (-36)%Z);
        [reflexivity | reflexivity | lia]).
  unfold categorize_price.
  destruct (is_nan price) eqn:Hnan.
  - rewrite !(leb_nan _ _ Hnan), !(ltb_nan _ _ Hnan).
    repeat split; intros; try reflexivity; try discriminate;
      repeat match goal with
             | H : _ /\ _ |- _ => destruct H
             | H : _ = _ |- _ => vm_compute in H; discriminate H
             end.
  - rewrite !(leb_negb_ltb price _ Hnan) by reflexivity.
    destruct (price <? 1000) eqn:L1;
      [ rewrite (W1 eq_refl), (W2 (W1 eq_refl)), (W3 (W2 (W1 eq_refl)))
      | destruct (price <? 10000) eqn:L2;
        [ rewrite (W2 eq_refl), (W3 (W2 eq_refl))
        | destruct (price <? 50000) eqn:L3;
          [ rewrite (W3 eq_refl)
          | destruct (price <? 100000) eqn:L4 ] ] ];
      simpl;
      repeat split; intros; try reflexivity; try discriminate;
      repeat match goal with
             | H : _ /\ _ |- _ => destruct H
             | H : _ = _ |- _ => vm_compute in H; discriminate H
             end.
Qed.

End PriceCategory.

(** ** The price normalizer *)

Section PriceNormalizer.
Import Py DataProcessor.
Open Scope string_scope.
Open Scope list_scope.

Lemma str_eqb_eq (a b : str) : str_eqb a b = true <-> a = b.
Proof.
  unfold str_eqb. destruct (list_eq_dec N.eq_dec a b); split; congruence.
Qed.

Lemma str_eqb_neq (a b : str) : str_eqb a b = false <-> a <> b.
Proof.
  unfold str_eqb. destruct (list_eq_dec N.eq_dec a b); split; congruence.
Qed.

Lemma findall_number_no_digit (s : str) :
  (forall c, In c s -> is_digit c = false) -> Re.findall_number s = [].
Proof.
  unfold Re.findall_number. induction s as [|c s IH]; intros H; simpl.
  - reflexivity.
  - rewrite (H c) by (left; reflexivity). apply IH. intros d Hd. apply H. now right.
Qed.

Lemma take_while_app_stop (p : char -> bool) (a b : str) :
  forallb p a = true -> take_while p (a ++ b) = a ++ take_while p b.
Proof.
  induction a as [|c a IH]; simpl; intros H.
  - reflexivity.
  - apply andb_prop in H. destruct H as [Hc Ha]. rewrite Hc, IH by exact Ha. reflexivity.
Qed.

Lemma drop_while_app_stop (p : char -> bool) (a b : str) :
  forallb p a = true -> drop_while p (a ++ b) = drop_while p b.
Proof.
  induction a as [|c a IH]; simpl; intros H.
  - reflexivity.
  - apply andb_prop in H. destruct H as [Hc Ha]. rewrite Hc. now apply IH.
Qed.

Lemma forallb_rev (p : char -> bool) (l : str) : forallb p (rev l) = forallb p l.
Proof.
  induction l as [|c l IH]; simpl.
  - reflexivity.
  - rewrite forallb_app, IH. simpl. rewrite andb_true_r. apply andb_comm.
Qed.


Lemma float_of_str_digits (ip : str) :
  ip <> [] -> forallb is_digit ip = true -> parses ip.
Proof.
  intros Hne Hd. unfold parses, float_of_str.
  pose proof (take_while_app_stop is_digit ip [] Hd) as Ht.
  pose proof (drop_while_app_stop is_digit ip [] Hd) as Hdr.
  rewrite app_nil_r in Ht, Hdr. simpl in Ht, Hdr. rewrite app_nil_r in Ht.
  rewrite Ht, Hdr. destruct ip; [congruence|]. simpl. eauto.
Qed.





(** C1.  [clean_price] on a null cell, on the sentinel and on a plain text
    without any digit is null, and ["₹ 2.50 Lakh"] gives 250000.0; but the
    digit run stops at the thousands separator, so ["₹ 5,000"] gives 5.0
    and not 5000.0. *)
Theorem clean_price_examples :
  clean_price None = nan /\
  clean_price (Some (u "Price not available")) = nan /\
  (forall s, plain s = true -> (forall c, In c s -> is_digit c = false) ->
             clean_price (Some s) = nan) /\
  clean_price (Some (u "₹ 2.50 Lakh")) = 250000%float /\
  Re.findall_number (u "₹ 5,000") = [u "5"; u "000"] /\
  clean_price (Some (u "₹ 5,000")) = 5%float /\
  clean_price (Some (u "₹ 5,000")) <> 5000%float.
Proof.
  repeat split; try reflexivity.
  - intros s _ Hs. unfold clean_price. simpl str_of.
    rewrite (findall_number_no_digit s Hs).
    match goal with |- (if ?b then _ else _) = _ => destruct b end; reflexivity.
  - vm_compute. intros H.
    assert (E : (5 =? 5000)%float = true) by (rewrite H at 1; reflexivity).
    vm_compute in E. discriminate.
Qed.

Lemma clean_price_examples_witness :
  clean_price (Some (u "₹ Price on Request")) = nan.
Proof.
  apply clean_price_examples.
  - reflexivity.
  - intros c Hc. by_cases_on_members Hc.
Defined.



(** Texts with more than one marker: the first test that succeeds decides. *)
Lemma clean_price_several_markers :
  clean_price (Some (u "3 Crore Lakh k")) = 300000%float /\
  clean_price (Some (u "3 crore, 2k")) = 30000000%float /\
  clean_price (Some (u "3K")) = 3000%float /\
  clean_price (Some (u "Rs 1.5 Lakh")) = 150000%float /\
  clean_price (Some (u "₹ 450")) = 450%float.
Proof. repeat split; reflexivity. Qed.

End PriceNormalizer.

(** ** The state of a location *)

Section StateExtraction.
Import Py DataProcessor.
Open Scope string_scope.
Open Scope list_scope.







(** A text without a comma comes back whole: no state occurs in
    ["Bhopal"], and the result is the text itself. *)
Lemma extract_state_no_comma_not_unknown :
  (forall c, In c (u "Bhopal") -> c <> 44%N) /\
  find (fun st => state_occurs st (u "Bhopal")) states = None /\
  extract_state (u "Bhopal") = u "Bhopal" /\
  extract_state (u "Bhopal") <> u "Unknown" /\
  extract_state [] = [] /\
  extract_state [] <> u "Unknown".
Proof.
  repeat split; try reflexivity; try (vm_compute; discriminate).
  intros c Hc. by_cases_on_members Hc.
Qed.

End StateExtraction.

(** ** The quality score *)

Section QualityScore.
Import Py DataProcessor.
Open Scope string_scope.
Open Scope list_scope.
Open Scope Z_scope.

Lemma quality_score_row_sum (r : CleanRow) :
  quality_score_row r =
    points (negb (isna (name (raw r)))) 30
    + points (negb (is_nan (price_cleaned r))) 25
    + points (negb (opt_str_eqb (company (raw r)) (Some (u "Unknown")))) 20
    + points (negb (str_eqb (location_cleaned r) (u "Unknown"))) 15
    + points (negb (isna (url (raw r)))) 10.
Proof.
  unfold quality_score_row, points, as_int.
  case_conditions; reflexivity.
Qed.

(** C2, as the code has it.  The score of every row is the sum of five
    independent checks, 30 for a name, 25 for a price, 20 for a company
    other than ["Unknown"], 15 for a cleaned location other than
    ["Unknown"], 10 for a url, and lies between 0 and 100; the series has
    one score per row.  A row with a name, a price and a url scores 65
    when its company is ["Unknown"] and its cleaned location is
    ["Unknown"]. *)
Theorem quality_score_weighted_sum (df : list CleanRow) :
  calculate_quality_score df = map quality_score_row df /\
  List.length (calculate_quality_score df) = List.length df /\
  (forall r, In r df ->
     quality_score_row r =
       points (negb (isna (name (raw r)))) 30
       + points (negb (is_nan (price_cleaned r))) 25
       + points (negb (opt_str_eqb (company (raw r)) (Some (u "Unknown")))) 20
       + points (negb (str_eqb (location_cleaned r) (u "Unknown"))) 15
       + points (negb (isna (url (raw r)))) 10) /\
  Forall (fun score => 0 <= score <= 100) (calculate_quality_score df) /\
  (forall r, In r df ->
     name (raw r) <> None ->
     is_nan (price_cleaned r) = false ->
     company (raw r) = Some (u "Unknown") ->
     location_cleaned r = u "Unknown" ->
     url (raw r) <> None ->
     quality_score_row r = 30 + 25 + 0 + 0 + 10).
Proof.
  split; [reflexivity|]. split; [apply length_map|].
  split; [intros r _; apply quality_score_row_sum|]. split.
  - unfold calculate_quality_score. apply Forall_map, Forall_forall. intros r _.
    rewrite quality_score_row_sum. unfold points.
    case_conditions; lia.
  - intros r _ Hname Hprice Hcompany Hloc Hurl.
    rewrite quality_score_row_sum, Hprice, Hcompany, Hloc.
    destruct (name (raw r)); [|congruence]. destruct (url (raw r)); [|congruence].
    reflexivity.
Qed.

Lemma quality_score_weighted_sum_witness :
  quality_score_row (add_cleaned_columns unresolved_row) = 30 + 25 + 0 + 0 + 10.
Proof.
  refine (proj2 (proj2 (proj2 (proj2
    (quality_score_weighted_sum (clean_data [unresolved_row])))))
    (add_cleaned_columns unresolved_row) _ _ _ _ _ _).
  - left. reflexivity.
  - discriminate.
  - reflexivity.
  - reflexivity.
  - reflexivity.
  - discriminate.
Defined.

(** C2 as it is written fails for the defaults of the extractor: with a
    name, a parsed price, the default company ["To be updated"], the
    default location ["India"] and a url, the score is 100, not 65. *)
Lemma quality_score_extractor_defaults :
  List.length (clean_data [extracted_row]) = 1%nat /\
  calculate_quality_score (clean_data [extracted_row]) = [100] /\
  calculate_quality_score (clean_data [extracted_row]) <> [65].
Proof. repeat split; try reflexivity. vm_compute. discriminate. Qed.

(** C10.  An empty url text still earns the 10 points of the url check:
    the row scores 10 more than the other four checks give, whereas a null
    url earns nothing. *)
Theorem quality_score_empty_url (r : CleanRow) :
  (url (raw r) = Some [] ->
   quality_score_row r =
     points (negb (isna (name (raw r)))) 30
     + points (negb (is_nan (price_cleaned r))) 25
     + points (negb (opt_str_eqb (company (raw r)) (Some (u "Unknown")))) 20
     + points (negb (str_eqb (location_cleaned r) (u "Unknown"))) 15
     + 10) /\
  (url (raw r) = None ->
   quality_score_row r =
     points (negb (isna (name (raw r)))) 30
     + points (negb (is_nan (price_cleaned r))) 25
     + points (negb (opt_str_eqb (company (raw r)) (Some (u "Unknown")))) 20
     + points (negb (str_eqb (location_cleaned r) (u "Unknown"))) 15
     + 0).
Proof.
  split; intros Hurl; rewrite quality_score_row_sum, Hurl; reflexivity.
Qed.

Lemma quality_score_empty_url_witness :
  quality_score_row
    (add_cleaned_columns
       {| name := Some (u "Industrial Lathe Machine");
          price := Some (u "Price on Request");
          price_numeric := nan;
          company := Some (u "To be updated");
          location := Some (u "India");
          category := Some (u "industrial machinery");
          rating := None;
          url := Some [];
          scraped_at := Some (u "2024-01-01T00:00:00");
          source := Some (u "TradeIndia") |})
  = 30 + 0 + 20 + 15 + 10.
Proof.
  refine (proj1 (quality_score_empty_url _) _). reflexivity.
Defined.

End QualityScore.

(** ** Deduplication *)

Section Deduplication.
Import Py DataProcessor.
Open Scope string_scope.
Open Scope list_scope.

Lemma opt_str_eqb_eq (a b : option str) : opt_str_eqb a b = true <-> a = b.
Proof.
  destruct a as [a|], b as [b|]; simpl; try (split; congruence).
  rewrite str_eqb_eq. split; congruence.
Qed.

Lemma key_eqb_eq (a b : key) : key_eqb a b = true <-> a = b.
Proof.
  destruct a as [a1 a2], b as [b1 b2]. unfold key_eqb. simpl.
  rewrite andb_true_iff, !opt_str_eqb_eq. split.
  - intros [-> ->]. reflexivity.
  - intros H. inversion H. auto.
Qed.

Lemma key_eqb_refl (k : key) : key_eqb k k = true.
Proof. now apply key_eqb_eq. Qed.

Lemma key_in_In (k : key) (seen : list key) : key_in k seen = true <-> In k seen.
Proof.
  unfold key_in. rewrite existsb_exists. split.
  - intros (x & Hx & E). apply key_eqb_eq in E. now subst.
  - intros H. exists k. split; [exact H|apply key_eqb_refl].
Qed.

Lemma key_in_cons (k k' : key) (seen : list key) :
  key_in k (k' :: seen) = key_eqb k k' || key_in k seen.
Proof. reflexivity. Qed.

Section AnyTable.
Variable A : Type.
Variable subset : A -> key.

Lemma drop_duplicates_from_keys (df : list A) :
  forall seen,
    NoDup (map subset (drop_duplicates_from subset seen df)) /\
    (forall r, In r (drop_duplicates_from subset seen df) -> ~ In (subset r) seen).
Proof.
  induction df as [|r df IH]; intros seen; simpl.
  - split; [constructor|intros r []].
  - destruct (key_in (subset r) seen) eqn:Hin.
    + apply IH.
    + destruct (IH (subset r :: seen)) as [Hnd Hout]. split.
      * constructor; [|exact Hnd].
        intros Hr. apply in_map_iff in Hr. destruct Hr as (r' & E & Hr').
        apply (Hout r' Hr'). left. now symmetry.
      * intros r' [<-|Hr'].
        -- intros Hs. apply key_in_In in Hs. congruence.
        -- intros Hs. apply (Hout r' Hr'). now right.
Qed.

Lemma drop_duplicates_from_subseq (df : list A) :
  forall seen, Subseq (drop_duplicates_from subset seen df) df.
Proof.
  induction df as [|r df IH]; intros seen; simpl.
  - constructor.
  - destruct (key_in (subset r) seen); constructor; apply IH.
Qed.

Lemma drop_duplicates_from_first (k : key) (df : list A) :
  forall seen,
    first_with_key subset k (drop_duplicates_from subset seen df) =
    if key_in k seen then None else first_with_key subset k df.
Proof.
  unfold first_with_key.
  induction df as [|r df IH]; intros seen; simpl.
  - now destruct (key_in k seen).
  - destruct (key_in (subset r) seen) eqn:Hin.
    + rewrite IH. destruct (key_in k seen) eqn:Hk; [reflexivity|].
      destruct (key_eqb (subset r) k) eqn:E; [|reflexivity].
      apply key_eqb_eq in E. congruence.
    + simpl. destruct (key_eqb (subset r) k) eqn:E.
      * apply key_eqb_eq in E. subst k. now rewrite Hin.
      * rewrite IH, key_in_cons.
        replace (key_eqb k (subset r)) with false; [reflexivity|].
        symmetry. destruct (key_eqb k (subset r)) eqn:E'; [|reflexivity].
        apply key_eqb_eq in E'. subst k. now rewrite key_eqb_refl in E.
Qed.

Lemma dropna_name_first (k : key) (df : list A) :
  first_with_key subset k (dropna_name subset df) =
  if isna (fst k) then None else first_with_key subset k df.
Proof.
  unfold first_with_key, dropna_name.
  induction df as [|r df IH]; simpl.
  - now destruct (isna (fst k)).
  - destruct (key_eqb (subset r) k) eqn:E.
    + apply key_eqb_eq in E. subst k.
      destruct (isna (fst (subset r))) eqn:Hna; simpl.
      * exact IH.
      * now rewrite key_eqb_refl.
    + destruct (isna (fst (subset r))); simpl; [exact IH|].
      now rewrite E.
Qed.

Lemma dropna_name_keys (df : list A) :
  NoDup (map subset df) -> NoDup (map subset (dropna_name subset df)).
Proof.
  unfold dropna_name. induction df as [|r df IH]; simpl; intros H.
  - constructor.
  - inversion H as [|? ? Hr Hdf]; subst.
    destruct (isna (fst (subset r))); simpl; [now apply IH|].
    constructor; [|now apply IH].
    intros Hin. apply Hr. apply in_map_iff in Hin. destruct Hin as (r' & E & Hr').
    apply filter_In in Hr'. apply in_map_iff. exists r'. tauto.
Qed.

End AnyTable.

(** Adding columns to every row commutes with the two row filters, as long
    as the key columns are read through the added columns unchanged. *)
Section AddingColumns.
Variables A B : Type.
Variable f : A -> B.
Variable key_a : A -> key.
Variable key_b : B -> key.
Hypothesis key_kept : forall r, key_b (f r) = key_a r.

Lemma drop_duplicates_from_map (df : list A) :
  forall seen,
    drop_duplicates_from key_b seen (map f df) =
    map f (drop_duplicates_from key_a seen df).
Proof.
  induction df as [|r df IH]; intros seen; simpl.
  - reflexivity.
  - rewrite key_kept. destruct (key_in (key_a r) seen); simpl; now rewrite IH.
Qed.

Lemma dropna_name_map (df : list A) :
  dropna_name key_b (map f df) = map f (dropna_name key_a df).
Proof.
  unfold dropna_name. induction df as [|r df IH]; simpl.
  - reflexivity.
  - rewrite key_kept. destruct (isna (fst (key_a r))); simpl; now rewrite IH.
Qed.

End AddingColumns.

Lemma find_map_key (k : key) (df : list Row) :
  first_with_key clean_key k (map add_cleaned_columns df) =
  option_map add_cleaned_columns (first_with_key raw_key k df).
Proof.
  unfold first_with_key. induction df as [|r df IH]; simpl.
  - reflexivity.
  - change (clean_key (add_cleaned_columns r)) with (raw_key r).
    destruct (key_eqb (raw_key r) k); [reflexivity|exact IH].
Qed.

(** C3.  After [drop_duplicates] no two rows carry the same pair of raw
    [name] and [company]; the rows kept stand in their original order, and
    for every pair the row kept is the first row of the table that carries
    it.  The same holds for the table [clean_data] returns, which moreover
    has no row without a name.  Two rows with equal pairs leave one row,
    the first, whatever their other columns.  The raw company is the key:
    two rows whose companies differ but clean to the same name are both
    kept. *)
Theorem drop_duplicates_keeps_first (df : list Row) :
  NoDup (map raw_key (drop_duplicates raw_key df)) /\
  Subseq (drop_duplicates raw_key df) df /\
  (forall k, first_with_key raw_key k (drop_duplicates raw_key df)
             = first_with_key raw_key k df) /\
  NoDup (map clean_key (clean_data df)) /\
  (forall k, first_with_key clean_key k (clean_data df)
             = if isna (fst k) then None
               else option_map add_cleaned_columns (first_with_key raw_key k df)) /\
  (forall r1 r2, raw_key r1 = raw_key r2 ->
     drop_duplicates raw_key [r1; r2] = [r1]) /\
  (forall r1 r2, raw_key r1 = raw_key r2 -> name r1 <> None ->
     clean_data [r1; r2] = [add_cleaned_columns r1]) /\
  (map company_cleaned (clean_data [acme_ltd_row; acme_inc_row]) = [u "Acme"; u "Acme"]
   /\ map raw (clean_data [acme_ltd_row; acme_inc_row]) = [acme_ltd_row; acme_inc_row]).
Proof.
  unfold drop_duplicates.
  split; [apply drop_duplicates_from_keys|].
  split; [apply drop_duplicates_from_subseq|].
  split; [intros k; now rewrite drop_duplicates_from_first|].
  split.
  { unfold clean_data, drop_duplicates.
    rewrite map_map.
    change (fun x => clean_key (add_cleaned_columns x)) with raw_key.
    apply dropna_name_keys, drop_duplicates_from_keys. }
  split.
  { intros k. unfold clean_data, drop_duplicates.
    rewrite find_map_key, dropna_name_first.
    destruct (isna (fst k)); [reflexivity|].
    now rewrite drop_duplicates_from_first. }
  split.
  { intros r1 r2 E. simpl. unfold key_in. simpl.
    now rewrite <- E, key_eqb_refl. }
  split.
  { intros r1 r2 E Hname. unfold clean_data, drop_duplicates. simpl.
    unfold key_in. simpl. rewrite <- E, key_eqb_refl. simpl.
    destruct (name r1); [reflexivity|congruence]. }
  split; reflexivity.
Qed.

Lemma drop_duplicates_keeps_first_witness :
  clean_data [acme_ltd_row;
              {| name := name acme_ltd_row;
                 price := Some (u "Price on Request");
                 price_numeric := nan;
                 company := company acme_ltd_row;
                 location := Some (u "India");
                 category := category acme_ltd_row;
                 rating := None;
                 url := Some (u "/p/77");
                 scraped_at := Some (u "2024-01-02T00:00:00");
                 source := Some (u "DHgate") |}]
  = [add_cleaned_columns acme_ltd_row].
Proof.
  refine (proj1 (proj2 (proj2 (proj2 (proj2 (proj2 (proj2
    (drop_duplicates_keeps_first [])))))))
    acme_ltd_row _ _ _).
  - reflexivity.
  - discriminate.
Defined.

(** C6.  Deduplicating first and adding the cleaned columns afterwards, as
    [clean_data] does, gives the same table as adding the columns to every
    row first and deduplicating afterwards: the added columns leave the raw
    row, hence the key, as it was. *)
Theorem clean_data_pass_order (df : list Row) :
  (forall r, raw (add_cleaned_columns r) = r) /\
  (forall r, clean_key (add_cleaned_columns r) = raw_key r) /\
  clean_data df = normalize_then_dedup df.
Proof.
  split; [reflexivity|]. split; [reflexivity|].
  unfold clean_data, normalize_then_dedup, drop_duplicates.
  rewrite (drop_duplicates_from_map add_cleaned_columns raw_key clean_key)
    by reflexivity.
  now rewrite (dropna_name_map add_cleaned_columns raw_key clean_key) by reflexivity.
Qed.

End Deduplication.

(** ** The record extractor *)

Section RecordExtractor.
Import Py MultiSourceScraper.
Open Scope string_scope.
Open Scope list_scope.
Open Scope Z_scope.

Variable world : World.

Lemma Subseq_nil_l (A : Type) (l : list A) : Subseq [] l.
Proof. induction l; constructor; assumption. Qed.

Lemma str_in_In (s : str) (l : list str) : str_in s l = true <-> In s l.
Proof.
  unfold str_in. rewrite existsb_exists. split.
  - intros (x & Hx & E). apply str_eqb_eq in E. now subst.
  - intros H. exists s. split; [exact H|now apply str_eqb_eq].
Qed.

Lemma plausible_length (name : str) :
  plausible name = true <-> 11 <= len name <= 199.
Proof.
  unfold plausible, len. rewrite !andb_true_iff, !Z.ltb_lt, negb_true_iff.
  destruct name; simpl List.length; simpl is_nil; split; intros H;
    repeat split; try congruence; lia.
Qed.

Lemma is_noise_false (name : str) :
  is_noise name = false <->
  forall skip, In skip noise_words -> contains skip (lower name) = false.
Proof.
  unfold is_noise. split.
  - intros H skip Hin. destruct (contains skip (lower name)) eqn:E; [|reflexivity].
    assert (existsb (fun skip => contains skip (lower name)) noise_words = true)
      by (apply existsb_exists; eauto).
    congruence.
  - intros H. destruct (existsb _ noise_words) eqn:E; [|reflexivity].
    apply existsb_exists in E. destruct E as (skip & Hin & Hc).
    rewrite (H skip Hin) in Hc. discriminate.
Qed.

(** What one run of the loop adds to [self.products]. *)
Lemma extract_loop_emits (category source_name : str) (max_results : Z)
    (all_links : list Tag) :
  forall count seen self count' self',
    extract_loop world category source_name max_results all_links count seen self
      = (count', self') ->
    exists emitted,
      products self' = products self ++ emitted /\
      clock_reads self' = (clock_reads self + List.length emitted)%nat /\
      requests self' = requests self /\
      count' = count + Z.of_nat (List.length emitted) /\
      (count <= max_results -> count' <= max_results) /\
      Subseq (map name emitted) (map candidate_name all_links) /\
      Forall (fun p => plausible (name p) = true /\ is_noise (name p) = false /\
                       ~ In (name p) seen /\
                       MultiSourceScraper.category p = category /\ source p = source_name) emitted /\
      NoDup (map name emitted).
Proof.
  induction all_links as [|link rest IH]; intros count seen self count' self' H;
    simpl in H.
  - inversion H; subst. exists []. simpl.
    rewrite app_nil_r, Nat.add_0_r, Z.add_0_r.
    repeat split; auto; constructor.
  - destruct (max_results <=? count) eqn:Hcap.
    + inversion H; subst. exists []. simpl.
      rewrite app_nil_r, Nat.add_0_r, Z.add_0_r.
      repeat split; auto; try constructor. apply Subseq_nil_l.
    + apply Z.leb_gt in Hcap.
      destruct (plausible (candidate_name link) && negb (str_in (candidate_name link) seen))
        eqn:Hok.
      * destruct (is_noise (candidate_name link)) eqn:Hnoise.
        -- destruct (IH _ _ _ _ _ H) as (emitted & ? & ? & ? & ? & ? & ? & ? & ?).
           exists emitted. repeat split; auto. now constructor.
        -- destruct (nearby_price link) as [price_text price_numeric].
           destruct (IH _ _ _ _ _ H)
             as (emitted & Hp & Hc & Hr & Hn & Hle & Hsub & Hall & Hnd).
           simpl in Hp, Hc, Hr.
           apply andb_prop in Hok. destruct Hok as [Hpl Hseen].
           apply negb_true_iff in Hseen.
           match type of Hp with
           | _ = (_ ++ [?p]) ++ _ => exists (p :: emitted)
           end.
           simpl. rewrite <- app_assoc in Hp. simpl in Hp.
           split; [exact Hp|]. split; [lia|]. split; [exact Hr|].
           split; [lia|]. split; [lia|]. split; [now constructor|]. split.
           ++ constructor.
              ** simpl. repeat split; auto.
                 intros Hin. apply str_in_In in Hin. congruence.
              ** eapply Forall_impl; [|exact Hall]. simpl.
                 intros p (? & ? & Hnot & ? & ?). repeat split; auto.
           ++ constructor; [|exact Hnd].
              intros Hin. apply in_map_iff in Hin. destruct Hin as (p & E & Hin).
              rewrite Forall_forall in Hall. destruct (Hall p Hin) as (_ & _ & Hnot & _).
              apply Hnot. left. now symmetry.
      * destruct (IH _ _ _ _ _ H) as (emitted & ? & ? & ? & ? & ? & ? & ? & ?).
        exists emitted. repeat split; auto. now constructor.
Qed.

(** C5.  For a cap that is not negative, [extract_products] appends to
    [self.products] at most [max_results] records and returns their number.
    Their names are names of candidate links, in document order; each has
    between 11 and 199 characters, contains none of the navigation words
    once lower-cased, and no two of them are equal. *)
Theorem extract_products_filters (self : Scraper) (all_links : list Tag)
    (category source_name : str) (max_results : Z) :
  0 <= max_results ->
  exists emitted : list Product,
    extract_products world self all_links category source_name max_results
      = (Z.of_nat (List.length emitted),
         {| products := products self ++ emitted;
            clock_reads := (clock_reads self + List.length emitted)%nat;
            requests := requests self |}) /\
    Z.of_nat (List.length emitted) <= max_results /\
    Subseq (map name emitted) (map candidate_name all_links) /\
    Forall (fun p =>
              11 <= len (name p) <= 199 /\
              forall skip, In skip noise_words -> contains skip (lower (name p)) = false)
           emitted /\
    NoDup (map name emitted).
Proof.
  intros Hcap. unfold extract_products.
  destruct (extract_loop world category source_name max_results all_links 0 [] self)
    as [count' self'] eqn:H.
  destruct (extract_loop_emits _ _ _ _ _ _ _ H)
    as (emitted & Hp & Hc & Hr & Hn & Hle & Hsub & Hall & Hnd).
  exists emitted. simpl in Hn. subst count'.
  split.
  - f_equal. destruct self'. simpl in *. now subst.
  - split; [now apply Hle|]. split; [exact Hsub|]. split; [|exact Hnd].
    eapply Forall_impl; [|exact Hall]. simpl.
    intros p (Hpl & Hno & _). split.
    + now apply plausible_length.
    + now apply is_noise_false.
Qed.

End RecordExtractor.

Section RecordExtractorExamples.
Import Py MultiSourceScraper.
Open Scope string_scope.
Open Scope list_scope.
Open Scope Z_scope.

Lemma extract_products_filters_witness :
  exists emitted : list Product,
    extract_products sample_world new_scraper sample_links
      (u "industrial machinery") (u "TradeIndia") 1
      = (Z.of_nat (List.length emitted),
         {| products := products new_scraper ++ emitted;
            clock_reads := (clock_reads new_scraper + List.length emitted)%nat;
            requests := requests new_scraper |}) /\
    Z.of_nat (List.length emitted) <= 1 /\
    Subseq (map name emitted) (map candidate_name sample_links) /\
    Forall (fun p =>
              11 <= len (name p) <= 199 /\
              forall skip, In skip noise_words -> contains skip (lower (name p)) = false)
           emitted /\
    NoDup (map name emitted).
Proof.
  apply (@extract_products_filters sample_world new_scraper sample_links
           (u "industrial machinery") (u "TradeIndia") 1).
  lia.
Defined.

(** The noise filter on the sample page: ["Home"] is too short,
    ["Contact Us Page Link"] contains a navigation word, the listing of 50
    characters is kept once, and the listing with an empty [href] is kept
    with an empty url. *)
Lemma extract_products_sample_page :
  plausible (u "Home") = false /\
  is_noise (u "Contact Us Page Link") = true /\
  len (u "Heavy Duty Hydraulic Press Machine 50 Ton Capacity") = 50 /\
  fst (extract_products sample_world new_scraper sample_links
         (u "industrial machinery") (u "TradeIndia") 15) = 2 /\
  map (fun p => (name p, price_numeric p, url p))
      (products (snd (extract_products sample_world new_scraper sample_links
                        (u "industrial machinery") (u "TradeIndia") 15)))
  = [ (u "Heavy Duty Hydraulic Press Machine 50 Ton Capacity",
       Some 123456%float, u "/p/1");
      (u "Industrial Lathe Machine", None, []) ].
Proof. repeat split; reflexivity. Qed.

End RecordExtractorExamples.

(** ** The aggregator *)

Section Aggregator.
Import Py MultiSourceScraper.
Open Scope string_scope.
Open Scope list_scope.
Open Scope Z_scope.

Variable world : World.
Variable category : str.
Variable max_per_source : Z.






End Aggregator.

Section AggregatorExamples.
Import Py MultiSourceScraper.
Open Scope string_scope.
Open Scope list_scope.
Open Scope Z_scope.


(** Four sources in a row: the first raises, the second is unknown, the
    third is refused with status 404, the fourth returns the sample page.
    All four are visited and the total is what the fourth contributes. *)
Lemma scrape_category_sample_run :
  fst (scrape_category sample_world new_scraper (u "safety equipment")
         [u "tradeindia"; u "indiamart"; u "alibaba"; u "dhgate"] 15) = 2 /\
  List.length (requests (snd (scrape_category sample_world new_scraper
         (u "safety equipment")
         [u "tradeindia"; u "indiamart"; u "alibaba"; u "dhgate"] 15))) = 3%nat /\
  map source (products (snd (scrape_category sample_world new_scraper
         (u "safety equipment")
         [u "tradeindia"; u "indiamart"; u "alibaba"; u "dhgate"] 15)))
  = [u "DHgate"; u "DHgate"].
Proof. repeat split; reflexivity. Qed.

Lemma scrape_source_request_url :
  requests (snd (scrape_source sample_world new_scraper (u "dhgate")
                   (u "safety equipment") 15))
  = [u "https://www.dhgate.com/wholesale/safety+equipment.html"].
Proof. reflexivity. Qed.

End AggregatorExamples.

(** ** Whitespace and case of texts *)

(** Decides the comparisons of a goal one by one, dropping the cases that
    contradict the bounds at hand. *)
Ltac decide_comparisons :=
  repeat (match goal with
          | |- context [(?a <=? ?b)%N] => destruct (N.leb_spec a b); try lia
          | |- context [(?a =? ?b)%N] => destruct (N.eqb_spec a b); try lia
          end; cbn [andb orb negb]).

Section TextLemmas.
Import Py.
Open Scope list_scope.

Lemma is_upper_range (c : char) : is_upper c = true <-> (65 <= c <= 90)%N.
Proof.
  unfold is_upper, in_range. rewrite andb_true_iff, !N.leb_le. tauto.
Qed.

Lemma is_lower_range (c : char) : is_lower c = true <-> (97 <= c <= 122)%N.
Proof.
  unfold is_lower, in_range. rewrite andb_true_iff, !N.leb_le. tauto.
Qed.

Lemma letter_not_space (c : char) : (65 <= c <= 122)%N -> is_space c = false.
Proof.
  intros H. unfold is_space, in_range. decide_comparisons; reflexivity.
Qed.

Lemma is_space_not_alpha (c : char) : is_space c = true -> is_alpha c = false.
Proof.
  intros H. unfold is_alpha.
  destruct (is_upper c) eqn:U.
  - apply is_upper_range in U. rewrite letter_not_space in H by lia. discriminate.
  - destruct (is_lower c) eqn:L; [|reflexivity].
    apply is_lower_range in L. rewrite letter_not_space in H by lia. discriminate.
Qed.

Lemma is_space_upper_char (c : char) : is_space (upper_char c) = is_space c.
Proof.
  unfold upper_char. destruct (is_lower c) eqn:L; [|reflexivity].
  apply is_lower_range in L. now rewrite !letter_not_space by lia.
Qed.

Lemma is_space_lower_char (c : char) : is_space (lower_char c) = is_space c.
Proof.
  unfold lower_char. destruct (is_upper c) eqn:U; [|reflexivity].
  apply is_upper_range in U. now rewrite !letter_not_space by lia.
Qed.

Lemma space_upper_char_keeps (c : char) : is_space c = true -> upper_char c = c.
Proof.
  intros H. unfold upper_char. destruct (is_lower c) eqn:L; [|reflexivity].
  apply is_lower_range in L. rewrite letter_not_space in H by lia. discriminate.
Qed.

Lemma space_lower_char_keeps (c : char) : is_space c = true -> lower_char c = c.
Proof.
  intros H. unfold lower_char. destruct (is_upper c) eqn:U; [|reflexivity].
  apply is_upper_range in U. rewrite letter_not_space in H by lia. discriminate.
Qed.

Lemma is_lower_upper_char (c : char) : is_lower (upper_char c) = false.
Proof.
  unfold upper_char. destruct (is_lower c) eqn:L; [|exact L].
  apply is_lower_range in L. unfold is_lower, in_range. decide_comparisons; reflexivity.
Qed.

Lemma is_upper_lower_char (c : char) : is_upper (lower_char c) = false.
Proof.
  unfold lower_char. destruct (is_upper c) eqn:U; [|exact U].
  apply is_upper_range in U. unfold is_upper, in_range. decide_comparisons; reflexivity.
Qed.

Lemma is_alpha_upper_char (c : char) : is_alpha (upper_char c) = is_alpha c.
Proof.
  unfold upper_char. destruct (is_lower c) eqn:L; [|reflexivity].
  unfold is_alpha. rewrite L. apply is_lower_range in L.
  unfold is_upper, is_lower, in_range. decide_comparisons; reflexivity.
Qed.

Lemma is_alpha_lower_char (c : char) : is_alpha (lower_char c) = is_alpha c.
Proof.
  unfold lower_char. destruct (is_upper c) eqn:U; [|reflexivity].
  unfold is_alpha. rewrite U. apply is_upper_range in U.
  unfold is_upper, is_lower, in_range. decide_comparisons; reflexivity.
Qed.

Lemma upper_char_idem (c : char) : upper_char (upper_char c) = upper_char c.
Proof. unfold upper_char at 1. now rewrite is_lower_upper_char. Qed.

Lemma lower_char_idem (c : char) : lower_char (lower_char c) = lower_char c.
Proof. unfold lower_char at 1. now rewrite is_upper_lower_char. Qed.

Lemma lower_upper_char (c : char) : lower_char (upper_char c) = lower_char c.
Proof.
  unfold upper_char. destruct (is_lower c) eqn:L; [|reflexivity].
  apply is_lower_range in L. unfold lower_char.
  assert (U : is_upper (c - 32)%N = true) by (apply is_upper_range; lia).
  assert (U' : is_upper c = false).
  { destruct (is_upper c) eqn:E; [|reflexivity]. apply is_upper_range in E. lia. }
  rewrite U, U'. lia.
Qed.

Lemma upper_lower_char (c : char) : upper_char (lower_char c) = upper_char c.
Proof.
  unfold lower_char. destruct (is_upper c) eqn:U; [|reflexivity].
  apply is_upper_range in U. unfold upper_char.
  assert (L : is_lower (c + 32)%N = true) by (apply is_lower_range; lia).
  assert (L' : is_lower c = false).
  { destruct (is_lower c) eqn:E; [|reflexivity]. apply is_lower_range in E. lia. }
  rewrite L, L'. lia.
Qed.

End TextLemmas.

(** ** Trimming, collapsing and title-casing *)

Section Normalizing.
Import Py.
Open Scope list_scope.

Lemma drop_while_suffix (p : char -> bool) (s : str) :
  exists dropped, s = dropped ++ drop_while p s /\ forallb p dropped = true.
Proof.
  induction s as [|c s (dropped & E & H)]; simpl.
  - exists []. auto.
  - destruct (p c) eqn:Hc.
    + exists (c :: dropped). simpl. rewrite Hc, H. split; [now f_equal|reflexivity].
    + exists []. auto.
Qed.

Lemma drop_while_head (p : char -> bool) (s : str) (c : char) (rest : str) :
  drop_while p s = c :: rest -> p c = false.
Proof.
  induction s as [|d s IH]; simpl; [discriminate|].
  destruct (p d) eqn:Hd; [exact IH|]. intros E. inversion E. now subst.
Qed.

Lemma drop_while_keep (p : char -> bool) (s : str) :
  match s with [] => True | c :: _ => p c = false end -> drop_while p s = s.
Proof. destruct s as [|c s]; simpl; [reflexivity|]. now intros ->. Qed.

(** What [strip] removes on both sides is whitespace. *)
Lemma strip_infix (s : str) :
  exists before after,
    s = before ++ strip s ++ after /\
    forallb is_space before = true /\ forallb is_space after = true.
Proof.
  unfold strip.
  destruct (drop_while_suffix is_space s) as (before & E1 & H1).
  destruct (drop_while_suffix is_space (rev (drop_while is_space s))) as (dropped & E2 & H2).
  exists before, (rev dropped). repeat split; auto.
  - rewrite E1 at 1. f_equal.
    rewrite <- (rev_involutive (drop_while is_space s)) at 1.
    rewrite E2 at 1. now rewrite rev_app_distr.
  - now rewrite forallb_rev.
Qed.

Lemma head_is_space_drop_while (s : str) : head_is_space (drop_while is_space s) = false.
Proof.
  destruct (drop_while is_space s) as [|c rest] eqn:E; [reflexivity|].
  simpl. now apply drop_while_head in E.
Qed.

Lemma last_of_suffix (dropped t : str) (c : char) (rest : str) :
  t <> [] -> rev (dropped ++ t) = c :: rest -> exists rest', rev t = c :: rest'.
Proof.
  intros Hne E. rewrite rev_app_distr in E.
  destruct (rev t) as [|d rt] eqn:Ert.
  - exfalso. apply Hne. rewrite <- (rev_involutive t), Ert. reflexivity.
  - simpl in E. inversion E. subst. eauto.
Qed.

(** [strip] leaves no whitespace at either end. *)
Lemma strip_trimmed (s : str) : trimmed (strip s) = true.
Proof.
  unfold trimmed, strip. rewrite rev_involutive, head_is_space_drop_while.
  rewrite andb_true_r. apply negb_true_iff.
  set (t := drop_while is_space s).
  destruct (drop_while_suffix is_space (rev t)) as (dropped & E & _).
  destruct (rev (drop_while is_space (rev t))) as [|c rest] eqn:Er; [reflexivity|].
  simpl.
  assert (Hne : drop_while is_space (rev t) <> []).
  { intros H. rewrite H in Er. discriminate. }
  assert (Et : t = rev (drop_while is_space (rev t)) ++ rev dropped).
  { rewrite <- (rev_involutive t) at 1. rewrite E at 1. now rewrite rev_app_distr. }
  rewrite Er in Et. simpl in Et.
  pose proof (head_is_space_drop_while s) as Hh. fold t in Hh.
  rewrite Et in Hh. exact Hh.
Qed.

Lemma strip_of_trimmed (s : str) : trimmed s = true -> strip s = s.
Proof.
  unfold trimmed, strip. rewrite andb_true_iff, !negb_true_iff. intros [Hh Hl].
  rewrite (drop_while_keep is_space s).
  - rewrite (drop_while_keep is_space (rev s)); [apply rev_involutive|].
    destruct (rev s); [exact I|exact Hl].
  - destruct s; [exact I|exact Hh].
Qed.

Lemma single_spaced_from_weaken (b : bool) (s : str) :
  single_spaced_from b s = true -> single_spaced_from false s = true.
Proof.
  destruct s as [|c s]; simpl; [reflexivity|].
  destruct (is_space c); [|trivial].
  rewrite !andb_true_iff. intros [[H1 _] H2]. auto.
Qed.

Lemma single_spaced_from_prefix (l m : str) :
  forall b, single_spaced_from b (l ++ m) = true -> single_spaced_from b l = true.
Proof.
  induction l as [|c l IH]; intros b; simpl; [reflexivity|].
  destruct (is_space c).
  - rewrite !andb_true_iff. intros [H1 H2]. split; [exact H1|]. now apply IH.
  - apply IH.
Qed.

Lemma single_spaced_from_suffix (l m : str) :
  forall b, single_spaced_from b (l ++ m) = true -> single_spaced_from false m = true.
Proof.
  induction l as [|c l IH]; intros b; simpl.
  - apply single_spaced_from_weaken.
  - destruct (is_space c).
    + rewrite !andb_true_iff. intros [_ H]. now apply IH in H.
    + apply IH.
Qed.

Lemma single_spaced_strip (s : str) :
  single_spaced s = true -> single_spaced (strip s) = true.
Proof.
  unfold single_spaced. intros H.
  destruct (strip_infix s) as (before & after & E & _ & _).
  rewrite E in H. apply single_spaced_from_suffix in H.
  now apply single_spaced_from_prefix in H.
Qed.

(** [re.sub(r'\s+', ' ', s)] leaves single spaces only. *)
Lemma single_spaced_sub_spaces_from (s : str) :
  forall b, single_spaced_from b (Re.sub_spaces_from b s) = true.
Proof.
  induction s as [|c s IH]; intros b; simpl; [reflexivity|].
  destruct (is_space c) eqn:Hc.
  - destruct b; [apply IH|].
    cbn [single_spaced_from]. change (is_space 32%N) with true.
    cbn [N.eqb Pos.eqb negb andb]. apply IH.
  - simpl. rewrite Hc. apply IH.
Qed.

Lemma sub_spaces_of_single_spaced (s : str) :
  forall b, single_spaced_from b s = true -> Re.sub_spaces_from b s = s.
Proof.
  induction s as [|c s IH]; intros b; simpl; [reflexivity|].
  destruct (is_space c) eqn:Hc.
  - rewrite !andb_true_iff. intros [[Hc32 Hb] Hs].
    apply N.eqb_eq in Hc32. apply negb_true_iff in Hb. subst.
    f_equal. now apply IH.
  - intros Hs. f_equal. now apply IH.
Qed.

(** Title-casing touches letters only. *)
Lemma single_spaced_title_from (s : str) :
  forall p b, single_spaced_from b (title_from p s) = single_spaced_from b s.
Proof.
  induction s as [|c s IH]; intros p b; simpl; [reflexivity|].
  destruct (is_space c) eqn:Hc.
  - assert (E : (if p then lower_char c else upper_char c) = c)
      by (destruct p; [now apply space_lower_char_keeps | now apply space_upper_char_keeps]).
    rewrite E, Hc, IH. reflexivity.
  - assert (E : is_space (if p then lower_char c else upper_char c) = false)
      by (destruct p; [now rewrite is_space_lower_char | now rewrite is_space_upper_char]).
    rewrite E. apply IH.
Qed.

Lemma title_from_length (s : str) :
  forall p, List.length (title_from p s) = List.length s.
Proof. induction s as [|c s IH]; intros p; simpl; [reflexivity|]. now rewrite IH. Qed.

Lemma head_is_space_title_from (s : str) (p : bool) :
  head_is_space (title_from p s) = head_is_space s.
Proof.
  destruct s as [|c s]; simpl; [reflexivity|].
  destruct p; [apply is_space_lower_char|apply is_space_upper_char].
Qed.

Lemma title_from_app (s t : str) :
  forall p, exists q, title_from p (s ++ t) = title_from p s ++ title_from q t.
Proof.
  induction s as [|c s IH]; intros p; simpl.
  - now exists p.
  - destruct (IH (is_alpha c)) as [q E]. exists q. now rewrite E.
Qed.

Lemma last_is_space_title_from (s : str) (p : bool) :
  head_is_space (rev (title_from p s)) = head_is_space (rev s).
Proof.
  destruct (rev s) as [|c r] eqn:E.
  - assert (s = []) by (rewrite <- (rev_involutive s), E; reflexivity). now subst.
  - assert (Es : s = rev r ++ [c]) by (rewrite <- (rev_involutive s), E; reflexivity).
    rewrite Es. destruct (title_from_app (rev r) [c] p) as [q Eq]. rewrite Eq.
    rewrite rev_app_distr. simpl.
    destruct q; [apply is_space_lower_char|apply is_space_upper_char].
Qed.

Lemma trimmed_title (s : str) : trimmed (title s) = trimmed s.
Proof.
  unfold trimmed, title. now rewrite head_is_space_title_from, last_is_space_title_from.
Qed.

Lemma title_from_idem (s : str) :
  forall p, title_from p (title_from p s) = title_from p s.
Proof.
  induction s as [|c s IH]; intros p; simpl; [reflexivity|].
  f_equal.
  - destruct p; [apply lower_char_idem|apply upper_char_idem].
  - replace (is_alpha (if p then lower_char c else upper_char c)) with (is_alpha c).
    + apply IH.
    + destruct p; [now rewrite is_alpha_lower_char|now rewrite is_alpha_upper_char].
Qed.

Lemma lower_title_from (s : str) : forall p, lower (title_from p s) = lower s.
Proof.
  induction s as [|c s IH]; intros p; simpl; [reflexivity|].
  rewrite IH. f_equal. destruct p; [apply lower_char_idem|apply lower_upper_char].
Qed.

End Normalizing.

(** ** Sub-lists in order *)

Section SubseqLemmas.
Variable A : Type.
Implicit Types l : list A.

Lemma Subseq_refl l : Subseq l l.
Proof. induction l; [constructor|now apply Subseq_keep]. Qed.

Lemma Subseq_empty l : Subseq [] l.
Proof. induction l; constructor; assumption. Qed.

Lemma Subseq_trans l1 l2 l3 : Subseq l1 l2 -> Subseq l2 l3 -> Subseq l1 l3.
Proof.
  intros H12 H23. revert l1 H12.
  induction H23 as [|x l2 l3 H23 IH|x l2 l3 H23 IH]; intros l1 H12.
  - exact H12.
  - apply Subseq_skip. now apply IH.
  - inversion H12; subst.
    + apply Subseq_skip. now apply IH.
    + apply Subseq_keep. now apply IH.
Qed.

Lemma Subseq_app l1 l2 m1 m2 : Subseq l1 l2 -> Subseq m1 m2 -> Subseq (l1 ++ m1) (l2 ++ m2).
Proof.
  intros Hl Hm. induction Hl; simpl.
  - exact Hm.
  - now apply Subseq_skip.
  - now apply Subseq_keep.
Qed.

Lemma Subseq_infix l before after : Subseq l (before ++ l ++ after).
Proof.
  rewrite <- (app_nil_l l) at 1. apply Subseq_app; [apply Subseq_empty|].
  rewrite <- (app_nil_r l) at 1. apply Subseq_app; [apply Subseq_refl|apply Subseq_empty].
Qed.

Lemma Subseq_filter (f : A -> bool) l : Subseq (filter f l) l.
Proof.
  induction l as [|x l IH]; simpl; [constructor|].
  destruct (f x); [now apply Subseq_keep|now apply Subseq_skip].
Qed.

Lemma Subseq_firstn (n : nat) l : Subseq (firstn n l) l.
Proof.
  revert n. induction l as [|x l IH]; intros [|n]; simpl.
  - constructor.
  - constructor.
  - apply Subseq_empty.
  - apply Subseq_keep, IH.
Qed.

Lemma Subseq_In l1 l2 (x : A) : Subseq l1 l2 -> In x l1 -> In x l2.
Proof.
  induction 1; simpl; intros Hin; auto.
  destruct Hin; auto.
Qed.

Lemma Subseq_length l1 l2 : Subseq l1 l2 -> (List.length l1 <= List.length l2)%nat.
Proof. induction 1; simpl; lia. Qed.

End SubseqLemmas.

Lemma Subseq_map (A B : Type) (f : A -> B) (l1 l2 : list A) :
  Subseq l1 l2 -> Subseq (map f l1) (map f l2).
Proof.
  induction 1; simpl; [constructor|now apply Subseq_skip|now apply Subseq_keep].
Qed.

(** ** Plain texts *)

Section PlainTexts.
Import Py.
Open Scope list_scope.

Lemma plain_char_ascii (c : char) : (c < 128)%N -> plain_char c = true.
Proof.
  intros H. unfold plain_char. apply N.ltb_lt in H. now rewrite H.
Qed.

Lemma plain_lower_char (c : char) : plain_char c = true -> plain_char (lower_char c) = true.
Proof.
  intros H. unfold lower_char. destruct (is_upper c) eqn:E; [|exact H].
  apply is_upper_range in E. apply plain_char_ascii. lia.
Qed.

Lemma plain_upper_char (c : char) : plain_char c = true -> plain_char (upper_char c) = true.
Proof.
  intros H. unfold upper_char. destruct (is_lower c) eqn:E; [|exact H].
  apply is_lower_range in E. apply plain_char_ascii. lia.
Qed.

Lemma plain_In (s : str) : plain s = true <-> forall c, In c s -> plain_char c = true.
Proof. apply forallb_forall. Qed.

Lemma plain_lower (s : str) : plain s = true -> plain (lower s) = true.
Proof.
  unfold plain, lower. induction s as [|c s IH]; simpl; [reflexivity|].
  intros H. apply andb_prop in H. destruct H as [Hc Hs].
  now rewrite plain_lower_char, IH.
Qed.

Lemma plain_title_from (s : str) :
  forall prev_cased, plain s = true -> plain (title_from prev_cased s) = true.
Proof.
  unfold plain. induction s as [|c s IH]; intros prev_cased; simpl; [reflexivity|].
  intros H. apply andb_prop in H. destruct H as [Hc Hs].
  rewrite IH by exact Hs. rewrite andb_true_r.
  destruct prev_cased; [now apply plain_lower_char|now apply plain_upper_char].
Qed.

Lemma plain_sub_spaces_from (s : str) :
  forall in_space, plain s = true -> plain (Re.sub_spaces_from in_space s) = true.
Proof.
  unfold plain. induction s as [|c s IH]; intros in_space; simpl; [reflexivity|].
  intros H. apply andb_prop in H. destruct H as [Hc Hs].
  destruct (is_space c); [destruct in_space|]; simpl; rewrite ?Hc; now apply IH.
Qed.

Lemma plain_strip (s : str) : plain s = true -> plain (strip s) = true.
Proof.
  intros H. destruct (strip_infix s) as (before & after & E & _).
  rewrite E in H. unfold plain in *. rewrite !forallb_app in H.
  apply andb_prop in H. destruct H as [_ H]. apply andb_prop in H. tauto.
Qed.

End PlainTexts.

(** ** The location, company and keyword normalizers *)

Section FieldNormalizers.
Import Py DataProcessor.
Open Scope string_scope.
Open Scope list_scope.

Lemma title_trimmed_single_spaced (s : str) :
  let r := title (strip (Re.sub_spaces s)) in
  trimmed r = true /\ single_spaced r = true /\ title r = r.
Proof.
  simpl. repeat split.
  - rewrite trimmed_title. apply strip_trimmed.
  - unfold single_spaced, title. rewrite single_spaced_title_from.
    apply single_spaced_strip. apply single_spaced_sub_spaces_from.
  - apply title_from_idem.
Qed.

Lemma clean_location_shape (location : option str) :
  trimmed (clean_location location) = true /\
  single_spaced (clean_location location) = true /\
  title (clean_location location) = clean_location location.
Proof.
  unfold clean_location.
  destruct (isna location || opt_str_eqb location (Some (u "Location not available"))).
  - repeat split; reflexivity.
  - apply title_trimmed_single_spaced.
Qed.

(** X1.  Whatever the cell, the text [clean_location] returns has no
    whitespace at either end, and its only whitespace is single spaces. *)
Theorem clean_location_normal_form (location : option str) :
  trimmed (clean_location location) = true /\
  single_spaced (clean_location location) = true.
Proof.
  destruct (clean_location_shape location) as (Ht & Hs & _). auto.
Qed.

Lemma plain_clean_location (location : option str) :
  plain_cell location = true -> plain (clean_location location) = true.
Proof.
  unfold clean_location.
  destruct (isna location || opt_str_eqb location (Some (u "Location not available")));
    [reflexivity|].
  destruct location as [s|]; simpl; intros H; [|reflexivity].
  apply plain_title_from, plain_strip, plain_sub_spaces_from, H.
Qed.

(** X2.  The cleaned form of a plain location is a plain text, and
    cleaning it again changes nothing. *)
Theorem clean_location_idempotent (location : option str) :
  plain_cell location = true ->
  plain (clean_location location) = true /\
  clean_location (Some (clean_location location)) = clean_location location.
Proof.
  intros Hplain. split; [now apply plain_clean_location|].
  destruct (clean_location_shape location) as (Ht & Hs & Hti).
  set (r := clean_location location) in *.
  assert (E : str_eqb r (u "Location not available") = false).
  { apply str_eqb_neq. intros Er. rewrite Er in Hti. vm_compute in Hti. discriminate. }
  unfold clean_location at 1. simpl isna. simpl orb. simpl opt_str_eqb. rewrite E.
  simpl str_of. unfold Re.sub_spaces.
  {
    rewrite (sub_spaces_of_single_spaced r false Hs), (strip_of_trimmed r Ht).
    exact Hti. }
Qed.

Lemma split_ws_words (s : str) :
  forall w, In w (split_ws s) ->
    w <> [] /\ forall c, In c w -> In c s /\ is_space c = false.
Proof.
  induction s as [|c s IH]; intros w Hw; [destruct Hw|].
  simpl in Hw. destruct (is_space c) eqn:Hc.
  - destruct (IH w Hw) as [Hne Hin]. split; [exact Hne|].
    intros d Hd. destruct (Hin d Hd). split; [now right|assumption].
  - assert (Hone : w = [c] -> w <> [] /\ forall d, In d w -> In d (c :: s) /\ is_space d = false).
    { intros ->. split; [discriminate|]. intros d [<-|[]]. split; [now left|exact Hc]. }
    assert (Hrest : In w (split_ws s) ->
                    w <> [] /\ forall d, In d w -> In d (c :: s) /\ is_space d = false).
    { intros Hin. destruct (IH w Hin) as [Hne H]. split; [exact Hne|].
      intros d Hd. destruct (H d Hd). split; [now right|assumption]. }
    destruct s as [|d s'].
    + destruct Hw as [<-|[]]. now apply Hone.
    + destruct (is_space d) eqn:Hd.
      * destruct Hw as [<-|Hw]; [now apply Hone|now apply Hrest].
      * destruct (split_ws (d :: s')) as [|w0 ws] eqn:Hsplit.
        -- destruct Hw as [<-|[]]. now apply Hone.
        -- destruct Hw as [<-|Hw].
           ++ split; [discriminate|].
              destruct (IH w0 (or_introl eq_refl)) as [_ H0].
              intros e [<-|He]; [split; [now left|exact Hc]|].
              destruct (H0 e He). split; [now right|assumption].
           ++ apply Hrest. now right.
Qed.

Lemma In_firstn (A : Type) (n : nat) (l : list A) (x : A) : In x (firstn n l) -> In x l.
Proof. apply Subseq_In, Subseq_firstn. Qed.

(** X3.  [extract_keywords] returns at most five keywords; each has at
    least three characters, is not a stop word and has no whitespace.  For
    a plain name they are words of the lower-cased name, in the order of
    the name, and plain texts without an upper-case letter.  A null name
    has no keyword. *)
Theorem extract_keywords_bounds (product_name : option str) :
  extract_keywords None = [] /\
  (List.length (extract_keywords product_name) <= 5)%nat /\
  Forall (fun word =>
            (3 <= List.length word)%nat /\
            str_in word stop_words = false /\
            forallb (fun c => negb (is_space c)) word = true)
         (extract_keywords product_name) /\
  (forall s, product_name = Some s -> plain s = true ->
     Subseq (extract_keywords product_name) (split_ws (lower s)) /\
     Forall (fun word => forallb (fun c => plain_char c && negb (is_upper c)) word = true)
            (extract_keywords product_name)).
Proof.
  split; [reflexivity|].
  unfold extract_keywords. destruct product_name as [s|]; simpl isna; cbv iota.
  2: { split; [simpl; lia|]. split; [constructor|]. intros s E. discriminate E. }
  simpl str_of. split; [apply firstn_le_length|]. split.
  - apply Forall_forall. intros w Hw. apply In_firstn in Hw.
    apply filter_In in Hw. destruct Hw as [Hw Hf].
    apply andb_prop in Hf. destruct Hf as [Hstop Hlen].
    apply negb_true_iff in Hstop. apply Nat.ltb_lt in Hlen.
    repeat split; [lia|exact Hstop|].
    apply forallb_forall. intros c Hc.
    destruct (split_ws_words (lower s) w Hw) as [_ Hchars].
    destruct (Hchars c Hc) as [_ Hsp]. now rewrite Hsp.
  - intros s' E Hplain. injection E as <-. split.
    + eapply Subseq_trans; [apply Subseq_firstn|apply Subseq_filter].
    + apply Forall_forall. intros w Hw. apply In_firstn in Hw.
      apply filter_In in Hw. destruct Hw as [Hw _].
      apply forallb_forall. intros c Hc.
      destruct (split_ws_words (lower s) w Hw) as [_ Hchars].
      destruct (Hchars c Hc) as [Hin _].
      pose proof (proj1 (plain_In (lower s)) (plain_lower s Hplain) c Hin) as Hpc.
      rewrite Hpc. simpl.
      unfold lower in Hin. apply in_map_iff in Hin. destruct Hin as (d & <- & _).
      now rewrite is_upper_lower_char.
Qed.

Lemma sub_suffix_from_deletes (lit : str) (s : str) :
  forall skip prev_word, Subseq (ReSub.sub_suffix_from lit skip prev_word s) s.
Proof.
  induction s as [|c s IH]; intros skip prev_word; simpl; [constructor|].
  destruct skip as [|k]; [|apply Subseq_skip, IH].
  destruct (ReSub.match_suffix_here lit prev_word (c :: s)) as [[|k]|];
    [apply Subseq_keep|apply Subseq_skip|apply Subseq_keep]; apply IH.
Qed.

Lemma strip_deletes (s : str) : Subseq (strip s) s.
Proof.
  destruct (strip_infix s) as (before & after & E & _). rewrite E at 2.
  apply Subseq_infix.
Qed.

Lemma remove_suffixes_deletes (sufs : list str) :
  forall s, Subseq (fold_left (fun acc suffix => ReSub.sub_suffix suffix acc) sufs s) s.
Proof.
  induction sufs as [|suf sufs IH]; intros s; simpl; [apply Subseq_refl|].
  eapply Subseq_trans; [apply IH|apply sub_suffix_from_deletes].
Qed.

(** X4.  The text [clean_company_name] returns has no whitespace at either
    end, and a null company becomes ["Unknown"].  On a plain company the
    function only deletes characters and changes the case of letters:
    lower-cased, its result is the lower-cased company with some
    characters left out, in order. *)
Theorem clean_company_name_only_deletes (company : option str) :
  clean_company_name None = u "Unknown" /\
  trimmed (clean_company_name company) = true /\
  (forall c, company = Some c -> plain c = true ->
     Subseq (lower (clean_company_name company)) (lower c)).
Proof.
  split; [reflexivity|].
  unfold clean_company_name. destruct company as [c|]; simpl isna; simpl orb.
  2: { split; [reflexivity|]. intros c E. discriminate E. }
  simpl opt_str_eqb. destruct (str_eqb c (u "Unknown")) eqn:E.
  - apply str_eqb_eq in E. subst. split; [reflexivity|].
    intros c E _. injection E as <-. apply Subseq_refl.
  - simpl str_of. split.
    + rewrite trimmed_title. apply strip_trimmed.
    + intros c' E' _. injection E' as <-.
      unfold title. rewrite lower_title_from. apply Subseq_map.
      eapply Subseq_trans; [apply strip_deletes|].
      eapply Subseq_trans; [apply remove_suffixes_deletes|apply strip_deletes].
Qed.

End FieldNormalizers.

(** ** The table [clean_data] returns *)

Section CleanedTable.
Import Py DataProcessor.
Open Scope string_scope.
Open Scope list_scope.

Lemma raw_of_clean_data (df : list Row) :
  map raw (clean_data df) = dropna_name raw_key (drop_duplicates raw_key df).
Proof.
  unfold clean_data. rewrite map_map. simpl. apply map_id.
Qed.

Lemma drop_duplicates_from_distinct (A : Type) (subset : A -> key) (df : list A) :
  forall seen,
    NoDup (map subset df) ->
    (forall r, In r df -> ~ In (subset r) seen) ->
    drop_duplicates_from subset seen df = df.
Proof.
  induction df as [|r df IH]; intros seen Hnd Hseen; simpl; [reflexivity|].
  inversion Hnd as [|? ? Hr Hdf]; subst.
  destruct (key_in (subset r) seen) eqn:Hin.
  - apply key_in_In in Hin. exfalso. apply (Hseen r); [now left|exact Hin].
  - f_equal. apply IH; [exact Hdf|].
    intros r' Hr' [E|Hs].
    + apply Hr. rewrite E. now apply in_map.
    + apply (Hseen r'); [now right|exact Hs].
Qed.

Lemma dropna_name_idem (A : Type) (subset : A -> key) (df : list A) :
  dropna_name subset (dropna_name subset df) = dropna_name subset df.
Proof.
  unfold dropna_name. induction df as [|r df IH]; simpl; [reflexivity|].
  destruct (negb (isna (fst (subset r)))) eqn:E; simpl; [|exact IH].
  now rewrite E, IH.
Qed.

Lemma clean_data_row_facts (df : list Row) (r : CleanRow) :
  In r (clean_data df) -> name (raw r) <> None /\ r = add_cleaned_columns (raw r).
Proof.
  unfold clean_data. intros Hr.
  apply in_map_iff in Hr. destruct Hr as (r0 & <- & Hr0).
  unfold dropna_name in Hr0. apply filter_In in Hr0. destruct Hr0 as [_ Hna].
  split; [|reflexivity]. simpl in *.
  destruct (name r0); [discriminate|discriminate].
Qed.

(** X5.  Every row of the table [clean_data] returns has a name; its raw
    columns are those of a row of the given table, the rows standing in the
    order of the given table, and its added columns are computed from its
    own raw columns. *)
Theorem clean_data_rows (df : list Row) :
  Forall (fun r => name (raw r) <> None /\ r = add_cleaned_columns (raw r))
         (clean_data df) /\
  Subseq (map raw (clean_data df)) df /\
  (List.length (clean_data df) <= List.length df)%nat.
Proof.
  assert (Hsub : Subseq (map raw (clean_data df)) df).
  { rewrite raw_of_clean_data. unfold dropna_name, drop_duplicates.
    eapply Subseq_trans; [apply Subseq_filter|apply drop_duplicates_from_subseq]. }
  split; [|split; [exact Hsub|]].
  - apply Forall_forall. intros r Hr. now apply clean_data_row_facts with df.
  - apply Subseq_length in Hsub. now rewrite length_map in Hsub.
Qed.

(** X6.  Cleaning the raw columns of a cleaned table again gives the same
    table. *)
Theorem clean_data_idempotent (df : list Row) :
  clean_data (map raw (clean_data df)) = clean_data df.
Proof.
  rewrite raw_of_clean_data. unfold clean_data.
  set (kept := dropna_name raw_key (drop_duplicates raw_key df)). f_equal.
  assert (Hnd : NoDup (map raw_key kept)).
  { apply dropna_name_keys. apply drop_duplicates_from_keys. }
  unfold drop_duplicates.
  rewrite (drop_duplicates_from_distinct raw_key kept [] Hnd) by (intros r _ []).
  unfold kept. apply dropna_name_idem.
Qed.

End CleanedTable.

(** ** The derived features *)

Section DerivedFeatures.
Import Py DataProcessor Features.
Open Scope string_scope.
Open Scope list_scope.

Lemma str_ltb_irrefl (a : str) : str_ltb a a = false.
Proof.
  induction a as [|x a IH]; simpl; [reflexivity|].
  rewrite N.ltb_irrefl, N.eqb_refl, IH. reflexivity.
Qed.

Lemma str_ltb_trans (a : str) :
  forall b c, str_ltb a b = true -> str_ltb b c = true -> str_ltb a c = true.
Proof.
  induction a as [|x a IH]; intros [|y b] [|z c]; simpl; try discriminate; auto.
  rewrite !orb_true_iff, !andb_true_iff, !N.ltb_lt, !N.eqb_eq.
  intros [Hxy|[Hxy Hab]] [Hyz|[Hyz Hbc]].
  - left. lia.
  - left. lia.
  - left. lia.
  - right. split; [lia|]. now apply IH with b.
Qed.

Lemma str_ltb_total (a : str) :
  forall b, a <> b -> str_ltb a b = false -> str_ltb b a = true.
Proof.
  induction a as [|x a IH]; intros [|y b] Hne; simpl; try congruence.
  rewrite orb_false_iff, andb_false_iff, orb_true_iff, andb_true_iff.
  rewrite N.ltb_ge, N.ltb_lt, !N.eqb_eq, N.eqb_neq.
  intros [Hle Hrest].
  destruct (N.eq_dec x y) as [E|E]; [|left; lia].
  right. split; [now symmetry|]. subst y.
  destruct Hrest as [Hrest|Hrest]; [congruence|].
  apply IH; [congruence|exact Hrest].
Qed.

Lemma insert_category_In (x y : str) (cats : list str) :
  In y (insert_category x cats) <-> y = x \/ In y cats.
Proof.
  induction cats as [|z cats IH]; simpl.
  - intuition.
  - destruct (str_eqb x z) eqn:E.
    + apply str_eqb_eq in E. subst z. simpl. intuition.
    + destruct (str_ltb x z); simpl; [intuition|]. rewrite IH. intuition.
Qed.

Lemma categories_In (x : str) (values : list (option str)) :
  In x (categories values) <-> In (Some x) values.
Proof.
  induction values as [|[y|] values IH]; simpl.
  - tauto.
  - rewrite insert_category_In, IH. split.
    + intros [->|H]; auto.
    + intros [E|H]; [inversion E; auto|auto].
  - rewrite IH. split; [auto|]. intros [E|H]; [discriminate|exact H].
Qed.

Lemma insert_category_increasing (x : str) (cats : list str) :
  increasing cats -> increasing (insert_category x cats).
Proof.
  induction 1 as [|z cats Hz Hcats IH]; simpl.
  - constructor; [intros y []|constructor].
  - destruct (str_eqb x z) eqn:E; [now constructor|].
    apply str_eqb_neq in E.
    destruct (str_ltb x z) eqn:L.
    + constructor; [|now constructor].
      intros y [<-|Hy]; [exact L|]. apply str_ltb_trans with z; auto.
    + constructor; [|exact IH].
      intros y Hy. apply insert_category_In in Hy. destruct Hy as [->|Hy]; auto.
      now apply str_ltb_total.
Qed.

Lemma categories_increasing (values : list (option str)) : increasing (categories values).
Proof.
  induction values as [|[y|] values IH]; simpl; auto using insert_category_increasing.
  constructor.
Qed.

Lemma position_In (x : str) (l : list str) :
  In x l -> exists i, position x l = Some i /\ (i < List.length l)%nat.
Proof.
  induction l as [|y l IH]; simpl; [intros []|].
  intros H. destruct (str_eqb x y) eqn:E.
  - exists O. split; [reflexivity|lia].
  - apply str_eqb_neq in E. destruct H as [H|H]; [congruence|].
    destruct (IH H) as (i & -> & Hi). exists (S i). split; [reflexivity|lia].
Qed.

Lemma position_nth (x : str) (l : list str) :
  forall i, position x l = Some i -> nth_error l i = Some x.
Proof.
  induction l as [|y l IH]; simpl; intros i; [discriminate|].
  destruct (str_eqb x y) eqn:E.
  - apply str_eqb_eq in E. intros H. inversion H. now subst.
  - destruct (position x l) as [j|]; [|discriminate].
    intros H. inversion H. simpl. now apply IH.
Qed.

Lemma position_order (l : list str) :
  increasing l ->
  forall x y i j, position x l = Some i -> position y l = Some j ->
    ((i < j)%nat <-> str_ltb x y = true).
Proof.
  induction 1 as [|z l Hz Hl IH]; intros x y i j; simpl; [discriminate|].
  destruct (str_eqb x z) eqn:Ex, (str_eqb y z) eqn:Ey.
  - apply str_eqb_eq in Ex, Ey. subst. intros Hi Hj. inversion Hi; inversion Hj; subst.
    rewrite str_ltb_irrefl. split; [lia|discriminate].
  - apply str_eqb_eq in Ex. subst z.
    destruct (position y l) as [j'|] eqn:Py; [|discriminate].
    intros Hi Hj. inversion Hi; inversion Hj; subst.
    split; [intros _|lia]. apply Hz. apply position_nth in Py.
    eapply nth_error_In; eauto.
  - apply str_eqb_eq in Ey. subst z.
    destruct (position x l) as [i'|] eqn:Px; [|discriminate].
    intros Hi Hj. inversion Hi; inversion Hj; subst.
    split; [lia|]. intros Hxy.
    assert (Hyx : str_ltb y x = true).
    { apply Hz. apply position_nth in Px. eapply nth_error_In; eauto. }
    pose proof (str_ltb_trans _ _ _ Hxy Hyx) as Hxx.
    rewrite str_ltb_irrefl in Hxx. discriminate.
  - destruct (position x l) as [i'|] eqn:Px; [|discriminate].
    destruct (position y l) as [j'|] eqn:Py; [|discriminate].
    intros Hi Hj. inversion Hi; inversion Hj; subst.
    rewrite <- (IH x y i' j' Px Py). lia.
Qed.

Lemma combine_with_map (A B : Type) (g : A -> B) (l : list A) :
  combine l (map g l) = map (fun r => (r, g r)) l.
Proof. induction l as [|r l IH]; simpl; [reflexivity|]. now rewrite IH. Qed.

(** The features of one row, given the categories of the table. *)
Lemma add_derived_features_rows (df : list CleanRow) :
  add_derived_features df =
  map (fun r =>
         {| cleaned := r;
            name_length := option_map (fun s => Z.of_nat (List.length s)) (name (raw r));
            has_price := negb (is_nan (price_cleaned r));
            category_code :=
              code_of (categories (map (fun r => category (raw r)) df)) (category (raw r));
            quality_score := quality_score_row r |})
      df.
Proof.
  unfold add_derived_features, calculate_quality_score.
  rewrite combine_with_map, map_map. reflexivity.
Qed.

(** X7.  [add_derived_features] keeps the rows and their order.  The
    category code of a row is [-1] exactly when its category is null, and
    otherwise the rank of the category among the distinct categories of the
    table in increasing order: two rows have the same code exactly when
    they have the same category, and the codes are ordered as the category
    texts are. *)
Theorem category_codes_rank (df : list CleanRow) :
  map cleaned (add_derived_features df) = df /\
  Forall (fun f =>
            (category_code f = -1 <-> category (raw (cleaned f)) = None) /\
            -1 <= category_code f
               < Z.of_nat (List.length (categories (map (fun r => category (raw r)) df))))%Z
         (add_derived_features df) /\
  Forall (fun f1 =>
            Forall (fun f2 =>
                      (category_code f1 = category_code f2 <->
                       category (raw (cleaned f1)) = category (raw (cleaned f2))) /\
                      match category (raw (cleaned f1)), category (raw (cleaned f2)) with
                      | Some c1, Some c2 =>
                        (category_code f1 < category_code f2)%Z <-> str_ltb c1 c2 = true
                      | _, _ => True
                      end)
                   (add_derived_features df))
         (add_derived_features df).
Proof.
  rewrite add_derived_features_rows.
  set (cats := categories (map (fun r => category (raw r)) df)).
  assert (Hpos : forall r c, In r df -> category (raw r) = Some c ->
            exists i, position c cats = Some i /\ (i < List.length cats)%nat).
  { intros r c Hr Hc. apply position_In. apply categories_In.
    rewrite <- Hc. apply in_map_iff. now exists r. }
  split; [rewrite map_map; simpl; apply map_id|]. split.
  - apply Forall_forall.
    intros f Hf. apply in_map_iff in Hf. destruct Hf as (r & <- & Hr). simpl.
    destruct (category (raw r)) as [c|] eqn:Hc; simpl.
    + destruct (Hpos r c Hr Hc) as (i & -> & Hi).
      split; [split; [lia|discriminate]|lia].
    + split; [tauto|lia].
  - apply Forall_forall. intros f1 Hf1. apply Forall_forall. intros f2 Hf2.
    apply in_map_iff in Hf1. destruct Hf1 as (r1 & <- & Hr1).
    apply in_map_iff in Hf2. destruct Hf2 as (r2 & <- & Hr2). simpl.
    destruct (category (raw r1)) as [c1|] eqn:Hc1, (category (raw r2)) as [c2|] eqn:Hc2;
      simpl.
    + destruct (Hpos r1 c1 Hr1 Hc1) as (i & Pi & Hi).
      destruct (Hpos r2 c2 Hr2 Hc2) as (j & Pj & Hj).
      rewrite Pi, Pj. split.
      * split.
        -- intros E. apply Nat2Z.inj in E. subst j.
           apply position_nth in Pi, Pj. congruence.
        -- intros E. inversion E. subst c2. congruence.
      * rewrite <- (position_order (categories_increasing _) _ _ Pi Pj). lia.
    + destruct (Hpos r1 c1 Hr1 Hc1) as (i & -> & Hi).
      split; [split; [lia|discriminate]|exact I].
    + destruct (Hpos r2 c2 Hr2 Hc2) as (j & -> & Hj).
      split; [split; [lia|discriminate]|exact I].
    + split; [tauto|exact I].
Qed.

Lemma categorize_price_unknown (price : float) :
  categorize_price price = u "Unknown" <-> is_nan price = true.
Proof.
  unfold categorize_price. destruct (is_nan price); [tauto|].
  split; [|discriminate].
  case_conditions; intros H; vm_compute in H; discriminate.
Qed.

Lemma quality_score_row_named (r : CleanRow) :
  name (raw r) <> None -> (30 <= quality_score_row r <= 100)%Z.
Proof.
  intros Hname. rewrite quality_score_row_sum. unfold points.
  destruct (name (raw r)); [simpl|congruence].
  case_conditions; lia.
Qed.

(** X8.  In the table that [clean_data] and then [add_derived_features]
    produce, every row has the length of its name (no name is null), a
    quality score from 30 to 100, and [has_price] set exactly when its
    price category is not ["Unknown"]. *)
Theorem processed_rows (df : list Row) :
  Forall (fun f =>
            (exists s, name (raw (cleaned f)) = Some s /\
                       name_length f = Some (Z.of_nat (List.length s))) /\
            (30 <= quality_score f <= 100)%Z /\
            (has_price f = true <-> price_category (cleaned f) <> u "Unknown"))
         (process df).
Proof.
  unfold process. rewrite add_derived_features_rows.
  apply Forall_forall. intros f Hf.
  apply in_map_iff in Hf. destruct Hf as (r & <- & Hr). simpl.
  destruct (clean_data_row_facts df r Hr) as [Hname Hr'].
  split; [|split].
  - destruct (name (raw r)) as [s|]; [|congruence]. now exists s.
  - now apply quality_score_row_named.
  - rewrite Hr' at 2. simpl. rewrite categorize_price_unknown.
    change (price_cleaned (add_cleaned_columns (raw r))) with (clean_price (price (raw r))).
    rewrite Hr' at 1. simpl.
    destruct (is_nan (clean_price (price (raw r)))); simpl; split; congruence.
Qed.

End DerivedFeatures.

(** ** More on the record extractor *)

Section ExtractorDetails.
Import Py MultiSourceScraper.
Open Scope string_scope.
Open Scope list_scope.
Open Scope Z_scope.

Variable world : World.

Lemma Prefix_refl (A : Type) (l : list A) : Prefix l l.
Proof. exists []. now rewrite app_nil_r. Qed.

Lemma Prefix_trans (A : Type) (l1 l2 l3 : list A) :
  Prefix l1 l2 -> Prefix l2 l3 -> Prefix l1 l3.
Proof.
  intros [r1 ->] [r2 ->]. exists (r1 ++ r2). now rewrite app_assoc.
Qed.

Lemma Prefix_app (A : Type) (l r : list A) : Prefix l (l ++ r).
Proof. now exists r. Qed.

(** The names kept by the loop: the valid candidate names not seen
    before, first occurrences only, as many as the cap still allows. *)
Lemma extract_loop_names (category source_name : str) (max_results : Z)
    (all_links : list Tag) :
  forall count seen self count' self' emitted,
    extract_loop world category source_name max_results all_links count seen self
      = (count', self') ->
    products self' = products self ++ emitted ->
    map name emitted =
      firstn (Z.to_nat (max_results - count))
             (distinct_from seen (filter valid_name (map candidate_name all_links))).
Proof.
  induction all_links as [|link rest IH];
    intros count seen self count' self' emitted H Hp; simpl in H.
  - inversion H; subst.
    rewrite <- (app_nil_r (products self')) in Hp at 1. apply app_inv_head in Hp.
    subst. simpl. now rewrite firstn_nil.
  - destruct (max_results <=? count) eqn:Hcap.
    + apply Z.leb_le in Hcap. inversion H; subst.
      rewrite <- (app_nil_r (products self')) in Hp at 1. apply app_inv_head in Hp.
      subst. replace (Z.to_nat (max_results - count')) with O by lia. reflexivity.
    + apply Z.leb_gt in Hcap. simpl. unfold valid_name at 1.
      destruct (plausible (candidate_name link)) eqn:Hpl; simpl in H |- *.
      * destruct (str_in (candidate_name link) seen) eqn:Hseen; simpl in H.
        -- destruct (is_noise (candidate_name link)); simpl.
           ++ eapply IH; eauto.
           ++ unfold str_in in Hseen. rewrite Hseen. eapply IH; eauto.
        -- destruct (is_noise (candidate_name link)) eqn:Hnoise; simpl.
           ++ eapply IH; eauto.
           ++ unfold str_in in Hseen. rewrite Hseen.
              destruct (nearby_price link) as [price_text price_numeric].
              destruct (extract_loop_emits _ _ _ _ _ _ _ _ H) as (emitted' & Hp' & _).
              simpl in Hp'. rewrite Hp, <- app_assoc in Hp'.
              apply app_inv_head in Hp'. subst emitted.
              replace (Z.to_nat (max_results - count))
                with (S (Z.to_nat (max_results - (count + 1)))) by lia.
              simpl. f_equal.
              eapply IH; [exact H|]. simpl. rewrite Hp, <- app_assoc. reflexivity.
      * eapply IH; eauto.
Qed.

(** X9.  The names of the records [extract_products] adds are the first
    [max_results] entries of the list obtained from the candidate names, in
    document order, by keeping the names that pass the length and noise
    filters and dropping repetitions; the count returned is their number. *)
Theorem extract_products_names (self : Scraper) (all_links : list Tag)
    (category source_name : str) (max_results : Z) :
  exists emitted : list Product,
    products (snd (extract_products world self all_links category source_name max_results))
      = products self ++ emitted /\
    map name emitted =
      firstn (Z.to_nat max_results)
             (distinct_from [] (filter valid_name (map candidate_name all_links))) /\
    fst (extract_products world self all_links category source_name max_results)
      = Z.of_nat (List.length emitted).
Proof.
  unfold extract_products.
  destruct (extract_loop world category source_name max_results all_links 0 [] self)
    as [count' self'] eqn:H.
  destruct (extract_loop_emits _ _ _ _ _ _ _ _ H) as (emitted & Hp & _ & _ & Hn & _).
  exists emitted. simpl. split; [exact Hp|]. split; [|exact Hn].
  erewrite extract_loop_names; [|exact H|exact Hp]. now rewrite Z.sub_0_r.
Qed.

Lemma extract_loop_grows (category source_name : str) (max_results : Z)
    (all_links : list Tag) (count : Z) (seen : list str) (self : Scraper) :
  Prefix (products self)
         (products (snd (extract_loop world category source_name max_results
                           all_links count seen self))).
Proof.
  destruct (extract_loop world category source_name max_results all_links count seen self)
    as [count' self'] eqn:H.
  destruct (extract_loop_emits _ _ _ _ _ _ _ _ H) as (emitted & Hp & _).
  simpl. rewrite Hp. apply Prefix_app.
Qed.

Lemma extract_loop_cap_reached (category source_name : str) (max_results : Z)
    (all_links : list Tag) (count : Z) (seen : list str) (self : Scraper) :
  max_results <= count ->
  extract_loop world category source_name max_results all_links count seen self
    = (count, self).
Proof.
  intros H. apply Z.leb_le in H. destruct all_links; simpl; [reflexivity|now rewrite H].
Qed.

Lemma extract_loop_cap_prefix (category source_name : str) (low high : Z)
    (all_links : list Tag) :
  low <= high ->
  forall count seen self,
    Prefix
      (products (snd (extract_loop world category source_name low all_links count seen self)))
      (products (snd (extract_loop world category source_name high all_links count seen self))).
Proof.
  intros Hle. induction all_links as [|link rest IH]; intros count seen self.
  - apply Prefix_refl.
  - destruct (Z.leb_spec low count) as [Hlow|Hlow].
    + rewrite (extract_loop_cap_reached category source_name (link :: rest) seen self Hlow).
      apply extract_loop_grows.
    + simpl.
      assert (Hl : (low <=? count) = false) by (apply Z.leb_gt; lia).
      assert (Hh : (high <=? count) = false) by (apply Z.leb_gt; lia).
      rewrite Hl, Hh.
      destruct (plausible (candidate_name link) && negb (str_in (candidate_name link) seen)).
      * destruct (is_noise (candidate_name link)); [apply IH|].
        destruct (nearby_price link). apply IH.
      * apply IH.
Qed.

(** X10.  Raising the cap only appends: the records collected under a cap
    are the first records collected, from the same page and the same
    scraper, under any larger cap. *)
Theorem extract_products_cap_prefix (self : Scraper) (all_links : list Tag)
    (category source_name : str) (low high : Z) :
  low <= high ->
  Prefix
    (products (snd (extract_products world self all_links category source_name low)))
    (products (snd (extract_products world self all_links category source_name high))).
Proof. intros Hle. now apply extract_loop_cap_prefix. Qed.

Lemma extract_loop_made_from (category source_name : str) (max_results : Z)
    (all_links : list Tag) :
  forall count seen self count' self' emitted,
    extract_loop world category source_name max_results all_links count seen self
      = (count', self') ->
    products self' = products self ++ emitted ->
    Forall (fun p => exists link, In link all_links /\ made_from category source_name link p)
           emitted.
Proof.
  induction all_links as [|link rest IH];
    intros count seen self count' self' emitted H Hp; simpl in H.
  - inversion H; subst.
    rewrite <- (app_nil_r (products self')) in Hp at 1. apply app_inv_head in Hp.
    subst. constructor.
  - assert (Hweak : forall em,
              Forall (fun p => exists l, In l rest /\ made_from category source_name l p) em ->
              Forall (fun p => exists l, In l (link :: rest) /\
                                         made_from category source_name l p) em).
    { intros em. apply Forall_impl. intros p (l & Hl & Hm). exists l. simpl. auto. }
    destruct (max_results <=? count).
    + inversion H; subst.
      rewrite <- (app_nil_r (products self')) in Hp at 1. apply app_inv_head in Hp.
      subst. constructor.
    + destruct (plausible (candidate_name link) && negb (str_in (candidate_name link) seen)).
      * destruct (is_noise (candidate_name link)); [eapply Hweak, IH; eauto|].
        destruct (nearby_price link) as [price_text price_numeric] eqn:Hprice.
        destruct (extract_loop_emits _ _ _ _ _ _ _ _ H) as (emitted' & Hp' & _).
        simpl in Hp'. rewrite Hp, <- app_assoc in Hp'.
        apply app_inv_head in Hp'. subst emitted.
        constructor.
        -- exists link. split; [now left|]. unfold made_from. simpl.
           rewrite Hprice. repeat split; reflexivity.
        -- eapply Hweak, IH; [exact H|]. simpl. rewrite Hp, <- app_assoc. reflexivity.
      * eapply Hweak, IH; eauto.
Qed.

(** X11.  Every record [extract_products] adds is made from one link of
    the page: its name, price text, numeric price and url are that link's,
    its category and source are the ones passed in, its company is
    ["To be updated"], its location ["India"], and it has no rating. *)
Theorem extract_products_records (self : Scraper) (all_links : list Tag)
    (category source_name : str) (max_results : Z) :
  exists emitted : list Product,
    products (snd (extract_products world self all_links category source_name max_results))
      = products self ++ emitted /\
    Forall (fun p => exists link, In link all_links /\ made_from category source_name link p)
           emitted.
Proof.
  unfold extract_products.
  destruct (extract_loop world category source_name max_results all_links 0 [] self)
    as [count' self'] eqn:H.
  destruct (extract_loop_emits _ _ _ _ _ _ _ _ H) as (emitted & Hp & _).
  exists emitted. simpl. split; [exact Hp|].
  eapply extract_loop_made_from; eauto.
Qed.

End ExtractorDetails.

(** ** Prices next to a link, and the requests of a run *)

Section PricesAndRequests.
Import Py MultiSourceScraper.
Open Scope string_scope.
Open Scope list_scope.
Open Scope Z_scope.

Lemma findall_grouped_from_runs (s : str) :
  forall cur,
    match cur with
    | Some acc => forallb Re.digit_or_comma acc = true
    | None => True
    end ->
    Forall (fun run => forallb Re.digit_or_comma run = true) (Re.findall_grouped_from cur s).
Proof.
  induction s as [|c s IH]; intros cur Hcur; simpl.
  - destruct cur as [acc|]; constructor; [now rewrite forallb_rev|constructor].
  - destruct (Re.digit_or_comma c) eqn:Hc.
    + apply IH. simpl. rewrite Hc. destruct cur; [exact Hcur|reflexivity].
    + destruct cur as [acc|]; [constructor; [now rewrite forallb_rev|]|]; now apply IH.
Qed.

Lemma replace_commas (run : str) :
  forallb Re.digit_or_comma run = true ->
  forallb is_digit (replace 44%N [] run) = true /\
  (replace 44%N [] run = [] <-> existsb is_digit run = false).
Proof.
  unfold replace. induction run as [|c run IH]; simpl; intros H.
  - split; [reflexivity|tauto].
  - apply andb_prop in H. destruct H as [Hc Hrun]. destruct (IH Hrun) as [IH1 IH2].
    destruct (N.eqb_spec c 44) as [E|E].
    + subst c. simpl. split; [exact IH1|exact IH2].
    + unfold Re.digit_or_comma in Hc. apply orb_prop in Hc.
      destruct Hc as [Hd|Hd]; [|apply N.eqb_eq in Hd; congruence].
      simpl. rewrite Hd, IH1. split; [reflexivity|]. split; discriminate.
Qed.

Lemma float_of_str_digits_none (digits : str) :
  forallb is_digit digits = true -> (float_of_str digits = None <-> digits = []).
Proof.
  intros Hd. split.
  - intros Hn. destruct digits as [|c digits]; [reflexivity|].
    destruct (@float_of_str_digits (c :: digits)) as [x Hx]; [discriminate|exact Hd|].
    congruence.
  - intros ->. reflexivity.
Qed.

(** X12.  The price text found next to a link has no whitespace at either
    end.  When the texts next to the link are plain, a fragment that does
    not parse is passed over in silence: the numeric price is null exactly
    when the text has no run of digits and commas or when its first such
    run holds commas only; the text is kept either way. *)
Theorem nearby_price_parse (link : Tag) :
  trimmed (fst (nearby_price link)) = true /\
  (plain_strings link = true ->
   match Re.findall_grouped (fst (nearby_price link)) with
   | [] => snd (nearby_price link) = None
   | first :: _ => snd (nearby_price link) = None <-> existsb is_digit first = false
   end).
Proof.
  unfold nearby_price.
  destruct (parent link) as [strings|]; [|split; reflexivity].
  destruct (find Re.search_price_marker strings) as [price_elem|];
    [|split; reflexivity].
  cbv zeta. unfold Re.findall_grouped in *.
  destruct (Re.findall_grouped_from None (strip price_elem)) as [|first rest] eqn:Hfind;
    cbn [fst snd]; rewrite Hfind.
  - split; [apply strip_trimmed|reflexivity].
  - split; [apply strip_trimmed|]. intros _.
    assert (Hruns : Forall (fun run => forallb Re.digit_or_comma run = true) (first :: rest))
      by (rewrite <- Hfind; now apply findall_grouped_from_runs).
    apply Forall_inv in Hruns.
    destruct (replace_commas first Hruns) as [Hdig Hnil].
    rewrite (float_of_str_digits_none _ Hdig). exact Hnil.
Qed.

Variable world : World.

Lemma scrape_source_requests (self : Scraper) (source_key category : str) (max_results : Z) :
  requests (snd (scrape_source world self source_key category max_results))
  = requests self ++ match planned_request category source_key with
                     | Some address => [address]
                     | None => []
                     end.
Proof.
  unfold scrape_source, planned_request.
  destruct (dict_get sources source_key) as [source|]; [|simpl; now rewrite app_nil_r].
  destruct (get world _ _) as [|status_code all_links]; [reflexivity|].
  destruct (status_code =? 200); [|reflexivity].
  unfold extract_products.
  match goal with
  | |- context [extract_loop ?w ?c ?n ?m ?l ?k ?s ?self0] =>
    destruct (extract_loop w c n m l k s self0) as [count' self'] eqn:H
  end.
  destruct (extract_loop_emits _ _ _ _ _ _ _ _ H) as (emitted & _ & _ & Hr & _).
  simpl in *. exact Hr.
Qed.

Lemma scrape_loop_requests (category : str) (max_per_source : Z) (srcs : list str) :
  forall total self,
    requests (snd (scrape_loop world category max_per_source srcs total self))
    = requests self ++ planned_requests category srcs.
Proof.
  induction srcs as [|source_key rest IH]; intros total self; simpl.
  - now rewrite app_nil_r.
  - pose proof (scrape_source_requests self source_key category max_per_source) as Hs.
    destruct (scrape_source world self source_key category max_per_source)
      as [count self1].
    simpl in Hs. rewrite IH, Hs, <- app_assoc. reflexivity.
Qed.

(** X13.  A run of [scrape_category] asks for exactly one address per
    registered source key, in the order of the list, whatever the answers
    are; a key that is not registered costs no request and changes nothing
    in the scraper. *)
Theorem scrape_category_requests (self : Scraper) (category : str)
    (srcs : list str) (max_per_source : Z) :
  requests (snd (scrape_category world self category srcs max_per_source))
    = requests self ++ planned_requests category srcs /\
  Forall (fun source_key =>
            match dict_get sources source_key with
            | Some _ => True
            | None =>
              scrape_source world self source_key category max_per_source = (0, self)
            end) srcs.
Proof.
  split; [apply scrape_loop_requests|].
  apply Forall_forall. intros source_key _. unfold scrape_source.
  now destruct (dict_get sources source_key).
Qed.

Lemma replace_space_no_space (category : str) :
  forallb (fun c => negb (c =? 32)%N) (replace 32%N [43%N] category) = true.
Proof.
  unfold replace. induction category as [|c category IH]; simpl; [reflexivity|].
  destruct (N.eqb_spec c 32) as [E|E]; simpl; [exact IH|].
  apply N.eqb_neq in E. now rewrite E, IH.
Qed.

Lemma dict_get_In (V : Type) (d : list (str * V)) (k : str) (v : V) :
  dict_get d k = Some v -> In (k, v) d.
Proof.
  induction d as [|[k' v'] d IH]; simpl; [discriminate|].
  destruct (str_eqb k k') eqn:E.
  - apply str_eqb_eq in E. intros H. inversion H. subst. now left.
  - intros H. right. now apply IH.
Qed.

(** The address of a registered source: the text of its template before
    the query, the query, the text after. *)
Lemma format_query_sources (q : str) :
  Forall (fun entry =>
            exists before after,
              format_query (search_url (snd entry)) q = before ++ q ++ after /\
              starts_with (base_url (snd entry)) before = true /\
              forallb (fun c => negb (c =? 32)%N) (before ++ after) = true)
         sources.
Proof.
  repeat constructor; simpl snd.
  - exists (u "https://www.tradeindia.com/search.html?ss="), [].
    repeat split; reflexivity.
  - exists (u "https://www.alibaba.com/trade/search?SearchText="), [].
    repeat split; reflexivity.
  - exists (u "https://www.dhgate.com/wholesale/"), (u ".html").
    repeat split; reflexivity.
  - exists (u "https://www.exportersindia.com/search.htm?keyword="), [].
    repeat split; reflexivity.
Qed.

Lemma starts_with_app (p a b : str) : starts_with p a = true -> starts_with p (a ++ b) = true.
Proof.
  revert a. induction p as [|c p IH]; intros [|d a]; simpl; try discriminate; auto.
  rewrite !andb_true_iff. intros [H1 H2]. auto.
Qed.

(** X14.  Every address a run asks for begins with the base address of a
    registered source and holds no space: the spaces of the category are
    sent as plus signs. *)
Theorem planned_requests_shape (category : str) (srcs : list str) :
  Forall (fun address =>
            forallb (fun c => negb (c =? 32)%N) address = true /\
            existsb (fun entry => starts_with (base_url (snd entry)) address) sources = true)
         (planned_requests category srcs).
Proof.
  unfold planned_requests. apply Forall_forall. intros address Hin.
  apply in_flat_map in Hin. destruct Hin as (source_key & _ & Hin).
  unfold planned_request in Hin.
  destruct (dict_get sources source_key) as [source|] eqn:Hget; [|destruct Hin].
  destruct Hin as [<-|[]].
  apply dict_get_In in Hget.
  pose proof (format_query_sources (replace 32%N [43%N] category)) as Hall.
  rewrite Forall_forall in Hall.
  destruct (Hall _ Hget) as (before & after & Hfmt & Hbase & Hclean).
  simpl in Hfmt, Hbase. rewrite Hfmt.
  rewrite forallb_app in Hclean. apply andb_prop in Hclean. destruct Hclean as [Hb Ha].
  split.
  - now rewrite !forallb_app, Hb, Ha, replace_space_no_space.
  - apply existsb_exists. exists (source_key, source). split; [exact Hget|].
    simpl. now apply starts_with_app.
Qed.

Lemma scrape_source_bounded (self : Scraper) (source_key category : str)
    (max_results : Z) :
  0 <= max_results ->
  0 <= fst (scrape_source world self source_key category max_results) <= max_results /\
  Prefix (products self)
         (products (snd (scrape_source world self source_key category max_results))).
Proof.
  intros Hmax. unfold scrape_source.
  destruct (dict_get sources source_key) as [source|];
    [|simpl; split; [lia|apply Prefix_refl]].
  destruct (get world _ _) as [|status_code all_links];
    [simpl; split; [lia|apply Prefix_refl]|].
  destruct (status_code =? 200); [|simpl; split; [lia|apply Prefix_refl]].
  unfold extract_products.
  match goal with
  | |- context [extract_loop ?w ?c ?n ?m ?l ?k ?s ?self0] =>
    destruct (extract_loop w c n m l k s self0) as [count' self'] eqn:H
  end.
  destruct (extract_loop_emits _ _ _ _ _ _ _ _ H) as (emitted & Hp & _ & _ & Hn & Hle & _).
  simpl in *. split; [lia|]. rewrite Hp. apply Prefix_app.
Qed.

Lemma scrape_loop_bounded (category : str) (max_per_source : Z) (srcs : list str) :
  0 <= max_per_source ->
  forall total self,
    total <= fst (scrape_loop world category max_per_source srcs total self)
          <= total + max_per_source * Z.of_nat (List.length srcs) /\
    Prefix (products self)
           (products (snd (scrape_loop world category max_per_source srcs total self))).
Proof.
  intros Hmax. induction srcs as [|source_key rest IH]; intros total self.
  - simpl. split; [lia|apply Prefix_refl].
  - cbn [scrape_loop].
    pose proof (scrape_source_bounded self source_key category Hmax) as [Hc Hp].
    destruct (scrape_source world self source_key category max_per_source)
      as [count self1].
    simpl in Hc, Hp. destruct (IH (total + count) self1) as [Ht Hp'].
    split; [|eapply Prefix_trans; eauto].
    rewrite length_cons, Nat2Z.inj_succ. nia.
Qed.

(** X15.  With a cap that is not negative, the total of a run lies
    between 0 and the cap times the number of sources, and the records held
    before the run are still there, first and in order, after it. *)
Theorem scrape_category_bounded (self : Scraper) (category : str)
    (srcs : list str) (max_per_source : Z) :
  0 <= max_per_source ->
  0 <= fst (scrape_category world self category srcs max_per_source)
    <= max_per_source * Z.of_nat (List.length srcs) /\
  Prefix (products self)
         (products (snd (scrape_category world self category srcs max_per_source))).
Proof.
  intros Hmax. unfold scrape_category.
  destruct (scrape_loop_bounded category srcs Hmax 0 self) as [Ht Hp].
  split; [lia|exact Hp].
Qed.

End PricesAndRequests.

(** ** The sample products *)

Section SampleProductsFacts.
Import Py MultiSourceScraper SampleProducts.
Open Scope string_scope.
Open Scope list_scope.
Open Scope Z_scope.

Variable chance : Chance.
Variable world : World.

Lemma sample_product_adds (templates : list str) (category : str)
    (self : Scraper) (draws : nat) :
  exists p,
    products (fst (sample_product chance world templates category self draws))
      = products self ++ [p] /\
    requests (fst (sample_product chance world templates category self draws))
      = requests self /\
    source p = u "Enhanced Sample Data" /\
    MultiSourceScraper.category p = category /\
    (exists t1 t2, name p = strip (choice chance t1 prefixes ++ u " "
                                     ++ choice chance t2 templates)) /\
    (exists t, company p = choice chance t companies) /\
    (exists t, location p = choice chance t cities) /\
    (exists t, price p = u "₹ " ++ format_grouped (randint chance t 1000 500000)) /\
    (exists t, price_numeric p = Some (float_of_int (randint chance t 1000 500000))).
Proof.
  unfold sample_product. cbv zeta. eexists. cbn [fst products requests].
  split; [reflexivity|]. split; [reflexivity|].
  cbn [source MultiSourceScraper.category name company location price price_numeric].
  split; [reflexivity|]. split; [reflexivity|].
  split; [do 2 eexists; reflexivity|].
  repeat split; eexists; reflexivity.
Qed.

Lemma sample_loop_adds (Q : Product -> Prop) (templates : list str) (category : str) :
  (forall self draws p,
     products (fst (sample_product chance world templates category self draws))
       = products self ++ [p] -> Q p) ->
  forall rounds self draws,
  exists added,
    products (fst (sample_loop chance world rounds templates category self draws))
      = products self ++ added /\
    requests (fst (sample_loop chance world rounds templates category self draws))
      = requests self /\
    List.length added = rounds /\
    Forall Q added.
Proof.
  intros HQ. induction rounds as [|rounds IH]; intros self draws.
  - exists []. simpl. rewrite app_nil_r. auto.
  - cbn [sample_loop].
    destruct (sample_product_adds templates category self draws) as (p & Hp & Hr & _).
    pose proof (HQ self draws p Hp) as Hq.
    destruct (sample_product chance world templates category self draws) as [self1 draws1].
    simpl in Hp, Hr.
    destruct (IH self1 draws1) as (added & Hp' & Hr' & Hlen & Hall).
    exists (p :: added). rewrite Hp', Hp, Hr', Hr, <- app_assoc. simpl.
    repeat split; auto.
Qed.

(** X16.  [add_sample_products] appends, after the records already held,
    as many records as the smaller of [count] and four times the number of
    templates of the category, none when [count] is not positive; for a
    category without templates it changes nothing and draws nothing.  It
    makes no request. *)
Theorem add_sample_products_count (self : Scraper) (draws : nat) (category : str)
    (count : Z) :
  (exists added,
     products (fst (add_sample_products chance world self draws category count))
       = products self ++ added /\
     List.length added = sample_rounds category count) /\
  requests (fst (add_sample_products chance world self draws category count))
    = requests self /\
  match dict_get product_templates category with
  | Some _ => True
  | None => add_sample_products chance world self draws category count = (self, draws)
  end.
Proof.
  unfold add_sample_products, sample_rounds.
  destruct (dict_get product_templates category) as [templates|].
  - destruct (sample_loop_adds (fun _ => True) templates category (fun _ _ _ _ => I)
                (Z.to_nat (Z.min count (Z.of_nat (List.length templates) * 4))) self draws)
      as (added & Hp & Hr & Hlen & _).
    split; [exists added; auto|]. split; [exact Hr|exact I].
  - replace (Z.to_nat (Z.min count (Z.of_nat (List.length (@nil str)) * 4))) with O
      by (simpl; lia).
    simpl. split; [exists []; now rewrite app_nil_r|]. split; reflexivity.
Qed.

Lemma choice_In (t : nat) (seq : list str) :
  fair chance -> seq <> [] -> In (choice chance t seq) seq.
Proof.
  intros [Hbelow _] Hne. unfold choice. apply nth_In.
  assert (0 < N.of_nat (List.length seq))%N by (destruct seq; [congruence|simpl; lia]).
  specialize (Hbelow t _ H). lia.
Qed.

Lemma randint_range (t : nat) (a b : Z) :
  fair chance -> a <= b -> a <= randint chance t a b <= b.
Proof.
  intros [Hbelow _] Hab. unfold randint.
  assert (0 < Z.to_N (b - a + 1))%N by lia.
  specialize (Hbelow t _ H). lia.
Qed.

(** X17.  With a generator that keeps Python's promises, every sample
    record carries the source ["Enhanced Sample Data"] and the category
    asked for, a company and a location of the fixed lists, a name made of
    a listed prefix and a template of the category, a price text that
    writes an integer from 1000 to 500000 with thousands separators, and a
    numeric price that is the float of an integer from 1000 to 500000. *)
Theorem add_sample_products_records (self : Scraper) (draws : nat) (category : str)
    (count : Z) :
  fair chance ->
  exists added,
    products (fst (add_sample_products chance world self draws category count))
      = products self ++ added /\
    Forall (fun p =>
              source p = u "Enhanced Sample Data" /\
              MultiSourceScraper.category p = category /\
              In (company p) companies /\
              In (location p) cities /\
              (exists prefix template templates,
                 In prefix prefixes /\
                 dict_get product_templates category = Some templates /\
                 In template templates /\
                 name p = strip (prefix ++ u " " ++ template)) /\
              (exists n, 1000 <= n <= 500000 /\ price p = u "₹ " ++ format_grouped n) /\
              (exists n, 1000 <= n <= 500000 /\ price_numeric p = Some (float_of_int n)))
           added.
Proof.
  intros Hfair. unfold add_sample_products.
  assert (Hnone : exists added,
            products (fst (sample_loop chance world
                             (Z.to_nat (Z.min count (Z.of_nat (List.length (@nil str)) * 4)))
                             [] category self draws))
              = products self ++ added /\ added = []).
  { replace (Z.to_nat (Z.min count (Z.of_nat (List.length (@nil str)) * 4))) with O
      by (simpl; lia).
    exists []. simpl. now rewrite app_nil_r. }
  destruct (dict_get product_templates category) as [templates|] eqn:Hget.
  2: { destruct Hnone as (added & Hp & ->). exists []. split; [exact Hp|constructor]. }
  destruct templates as [|template0 templates0] eqn:Htemplates.
  { destruct Hnone as (added & Hp & ->). exists []. split; [exact Hp|constructor]. }
  rewrite <- Htemplates in *.
  assert (Hne : templates <> []) by (rewrite Htemplates; discriminate).
  clear Hnone Htemplates.
  match goal with
  | |- exists added, _ /\ Forall ?Q added =>
    destruct (sample_loop_adds Q templates category) with
      (rounds := Z.to_nat (Z.min count (Z.of_nat (List.length templates) * 4)))
      (self := self) (draws := draws) as (added & Hp & _ & Hlen & Hall)
  end.
  - intros self0 draws0 p Hp.
    destruct (sample_product_adds templates category self0 draws0)
      as (p' & Hp' & _ & Hs & Hc & (t1 & t2 & Hn) & (t3 & Hco) & (t4 & Hl)
          & (t5 & Hpr) & (t6 & Hpn)).
    rewrite Hp in Hp'. apply app_inv_head in Hp'. inversion Hp'. subst p'.
    split; [exact Hs|]. split; [exact Hc|].
    split; [rewrite Hco; apply choice_In; [exact Hfair|discriminate]|].
    split; [rewrite Hl; apply choice_In; [exact Hfair|discriminate]|].
    split.
    + exists (choice chance t1 prefixes), (choice chance t2 templates), templates.
      split; [apply choice_In; [exact Hfair|discriminate]|]. split; [reflexivity|].
      split; [now apply choice_In|exact Hn].
    + split.
      * exists (randint chance t5 1000 500000).
        split; [apply randint_range; [exact Hfair|lia]|exact Hpr].
      * exists (randint chance t6 1000 500000).
        split; [apply randint_range; [exact Hfair|lia]|exact Hpn].
  - exists added. auto.
Qed.

Lemma uint_chars_digits (d : Decimal.uint) : forallb is_digit (uint_chars d) = true.
Proof. induction d; simpl; auto. Qed.

Lemma all_from_spec (p : Z -> bool) (k : nat) :
  forall start, all_from p k start = true ->
    forall n, start <= n < start + Z.of_nat k -> p n = true.
Proof.
  induction k as [|k IH]; intros start H n Hn; [lia|].
  simpl in H. apply andb_prop in H. destruct H as [Hs Hrest].
  destruct (Z.eq_dec n start) as [->|Hne]; [exact Hs|].
  apply (IH (start + 1) Hrest). lia.
Qed.

Lemma sample_prices_four_to_six :
  all_from four_to_six_digits (Z.to_nat 499001) 1000 = true.
Proof. vm_compute. reflexivity. Qed.

Lemma is_digit_cases (c : char) : is_digit c = true -> In c decimal_digits.
Proof.
  unfold is_digit, in_range. rewrite andb_true_iff, !N.leb_le. intros H.
  unfold decimal_digits. simpl.
  assert (c = 48 \/ c = 49 \/ c = 50 \/ c = 51 \/ c = 52 \/ c = 53 \/ c = 54
          \/ c = 55 \/ c = 56 \/ c = 57)%N by lia.
  intuition.
Qed.

Lemma short_decimals_budget :
  forallb (fun a => reads_as_budget [a]) decimal_digits
  && forallb (fun a => forallb (fun b => reads_as_budget [a; b]) decimal_digits)
             decimal_digits
  && forallb (fun a =>
                forallb (fun b => forallb (fun c => reads_as_budget [a; b; c])
                                          decimal_digits) decimal_digits)
             decimal_digits
  = true.
Proof. vm_compute. reflexivity. Qed.

Lemma lead_reads_as_budget (lead : str) :
  forallb is_digit lead = true ->
  (1 <= List.length lead <= 3)%nat ->
  reads_as_budget lead = true.
Proof.
  pose proof short_decimals_budget as H.
  apply andb_prop in H. destruct H as [H H3]. apply andb_prop in H. destruct H as [H1 H2].
  rewrite forallb_forall in H1, H2, H3.
  intros Hd Hlen.
  destruct lead as [|a [|b [|c [|d lead]]]]; simpl in Hlen; try lia; simpl in Hd;
    repeat match goal with
           | H : _ && _ = true |- _ => apply andb_prop in H; destruct H
           end.
  - apply H1. now apply is_digit_cases.
  - specialize (H2 a (is_digit_cases a ltac:(assumption))).
    rewrite forallb_forall in H2. apply H2. now apply is_digit_cases.
  - specialize (H3 a (is_digit_cases a ltac:(assumption))).
    rewrite forallb_forall in H3.
    specialize (H3 b (is_digit_cases b ltac:(assumption))).
    rewrite forallb_forall in H3. apply H3. now apply is_digit_cases.
Qed.

Lemma findall_number_digits_then_stop (lead : str) (stop : char) (tail : str) :
  forallb is_digit lead = true ->
  is_digit stop = false -> stop <> 46%N ->
  forall acc,
    Re.findall_number_from (Some (acc, false)) (lead ++ stop :: tail)
    = (rev acc ++ lead) :: Re.findall_number_from None tail.
Proof.
  intros Hd Hs Hdot. induction lead as [|c lead IH]; intros acc; simpl.
  - apply N.eqb_neq in Hdot. rewrite Hs, Hdot. simpl. now rewrite app_nil_r.
  - simpl in Hd. apply andb_prop in Hd. destruct Hd as [Hc Hl].
    rewrite Hc, (IH Hl). simpl. now rewrite <- app_assoc.
Qed.

Lemma findall_number_skip (c : char) (s : str) :
  is_digit c = false ->
  Re.findall_number_from None (c :: s) = Re.findall_number_from None s.
Proof. intros H. simpl. now rewrite H. Qed.

Lemma findall_number_start (c : char) (s : str) :
  is_digit c = true ->
  Re.findall_number_from None (c :: s) = Re.findall_number_from (Some ([c], false)) s.
Proof. intros H. simpl. now rewrite H. Qed.

Lemma contains_first_char (c : char) (sub s : str) :
  contains (c :: sub) s = true -> In c s.
Proof.
  induction s as [|d s IH]; simpl; [discriminate|].
  rewrite orb_true_iff, andb_true_iff. intros [[E _]|H].
  - apply N.eqb_eq in E. now left.
  - right. now apply IH.
Qed.

Lemma digit_not_alpha (c : char) : is_digit c = true -> is_alpha c = false.
Proof.
  unfold is_digit, in_range. rewrite andb_true_iff, !N.leb_le. intros H.
  unfold is_alpha, is_upper, is_lower, in_range. decide_comparisons; reflexivity.
Qed.

Lemma no_letter_no_marker (text marker : str) (c : char) :
  forallb (fun d => negb (is_alpha d)) text = true ->
  is_alpha c = true ->
  contains (c :: marker) (lower text) = false.
Proof.
  intros Htext Hc. destruct (contains (c :: marker) (lower text)) eqn:E; [|reflexivity].
  apply contains_first_char in E. unfold lower in E. apply in_map_iff in E.
  destruct E as (d & Hd & Hin).
  rewrite forallb_forall in Htext. specialize (Htext d Hin).
  apply negb_true_iff in Htext.
  rewrite <- Hd, is_alpha_lower_char in Hc. congruence.
Qed.

(** The cleaned price of a price text written with thousands separators,
    for the integers the sample generator draws. *)
Lemma clean_price_grouped_budget (n : Z) :
  1000 <= n <= 500000 ->
  DataProcessor.categorize_price
    (DataProcessor.clean_price (Some (u "₹ " ++ format_grouped n)))
  = u "Budget (< ₹1K)".
Proof.
  intros Hn.
  assert (Hlen : four_to_six_digits n = true)
    by (apply (@all_from_spec four_to_six_digits (Z.to_nat 499001) 1000
                 sample_prices_four_to_six); lia).
  unfold format_grouped. replace (n <? 0) with false by (symmetry; apply Z.ltb_ge; lia).
  replace (Z.abs n) with n by lia.
  unfold four_to_six_digits in Hlen. apply andb_prop in Hlen. destruct Hlen as [Hlo Hhi].
  apply Nat.leb_le in Hlo, Hhi.
  pose proof (uint_chars_digits (N.to_uint (Z.to_N n))) as Hd.
  fold (str_of_N (Z.to_N n)) in Hd.
  set (ds := str_of_N (Z.to_N n)) in *. clearbody ds.
  assert (Hshape : exists lead tail,
            rev (group_thousands 0 (rev ds)) = lead ++ 44%N :: tail /\
            forallb is_digit lead = true /\ forallb is_digit tail = true /\
            (1 <= List.length lead <= 3)%nat).
  { destruct ds as [|a [|b [|c [|d [|e [|f [|g ds]]]]]]]; simpl in Hlo, Hhi; try lia;
      simpl in Hd;
      repeat match goal with
             | H : _ && _ = true |- _ => apply andb_prop in H; destruct H
             end.
    - exists [a], [b; c; d]. simpl.
      repeat match goal with H : is_digit _ = true |- _ => rewrite H; clear H end.
      repeat split; lia.
    - exists [a; b], [c; d; e]. simpl.
      repeat match goal with H : is_digit _ = true |- _ => rewrite H; clear H end.
      repeat split; lia.
    - exists [a; b; c], [d; e; f]. simpl.
      repeat match goal with H : is_digit _ = true |- _ => rewrite H; clear H end.
      repeat split; lia. }
  destruct Hshape as (lead & tail & -> & Hlead & Htail & Hl).
  pose proof (@lead_reads_as_budget lead Hlead Hl) as Hbudget.
  unfold reads_as_budget in Hbudget.
  destruct (float_of_str lead) as [x|] eqn:Hx; [|discriminate].
  apply str_eqb_eq in Hbudget.
  set (text := u "₹ " ++ lead ++ 44%N :: tail).
  assert (Hfind : Re.findall_number text = lead :: Re.findall_number_from None tail).
  { unfold Re.findall_number, text.
    destruct lead as [|c lead]; [simpl in Hl; lia|].
    simpl in Hlead. apply andb_prop in Hlead. destruct Hlead as [Hc Hlead].
    change (u "₹ " ++ (c :: lead) ++ 44%N :: tail)
      with (8377%N :: 32%N :: c :: (lead ++ 44%N :: tail)).
    rewrite !findall_number_skip by reflexivity.
    rewrite (@findall_number_start c _ Hc).
    exact (@findall_number_digits_then_stop lead 44%N tail Hlead eq_refl
             ltac:(discriminate) [c]). }
  assert (Hplain : forallb (fun d => negb (is_alpha d)) text = true).
  { apply forallb_forall. intros d Hin. unfold text in Hin.
    rewrite forallb_forall in Hlead, Htail.
    apply in_app_or in Hin. destruct Hin as [Hin|Hin].
    - destruct Hin as [<-|[<-|[]]]; reflexivity.
    - apply in_app_or in Hin. destruct Hin as [Hin|[<-|Hin]].
      + now rewrite digit_not_alpha by auto.
      + reflexivity.
      + now rewrite digit_not_alpha by auto. }
  unfold DataProcessor.clean_price.
  assert (Hs : str_eqb text (u "Price not available") = false).
  { apply str_eqb_neq. unfold text. intros E. discriminate E. }
  simpl DataProcessor.isna. simpl opt_str_eqb. simpl DataProcessor.str_of.
  rewrite Hs. simpl orb. cbv iota.
  change (u "₹ " ++ lead ++ 44%N :: tail) with text.
  rewrite Hfind, Hx.
  change (u "lakh") with (108%N :: u "akh").
  change (u "crore") with (99%N :: u "rore").
  change (u "k") with (107%N :: []).
  rewrite !(@no_letter_no_marker text _ _ Hplain) by reflexivity.
  exact Hbudget.
Qed.

(** X18.  With a generator that keeps Python's promises, the price text of
    every sample record is one that [clean_price] reads as a price below
    1000: after cleaning, every sample record falls in the category
    ["Budget (< ₹1K)"], although its numeric price is the float of an
    integer of at least 1000. *)
Theorem add_sample_products_cleaned_price (self : Scraper) (draws : nat) (category : str)
    (count : Z) :
  fair chance ->
  exists added,
    products (fst (add_sample_products chance world self draws category count))
      = products self ++ added /\
    Forall (fun p =>
              DataProcessor.categorize_price (DataProcessor.clean_price (Some (price p)))
                = u "Budget (< ₹1K)" /\
              exists n, 1000 <= n /\ price_numeric p = Some (float_of_int n))
           added.
Proof.
  intros Hfair. unfold add_sample_products.
  set (templates := match dict_get product_templates category with
                    | Some templates => templates
                    | None => []
                    end).
  match goal with
  | |- exists added, _ /\ Forall ?Q added =>
    destruct (sample_loop_adds Q templates category) with
      (rounds := Z.to_nat (Z.min count (Z.of_nat (List.length templates) * 4)))
      (self := self) (draws := draws) as (added & Hp & _ & Hlen & Hall)
  end.
  - intros self0 draws0 p Hp.
    destruct (sample_product_adds templates category self0 draws0)
      as (p' & Hp' & _ & _ & _ & _ & _ & _ & (t5 & Hpr) & (t6 & Hpn)).
    rewrite Hp in Hp'. apply app_inv_head in Hp'. inversion Hp'. subst p'.
    split.
    + rewrite Hpr. apply clean_price_grouped_budget.
      apply randint_range; [exact Hfair|lia].
    + exists (randint chance t6 1000 500000). split; [|exact Hpn].
      apply randint_range; [exact Hfair|lia].
  - exists added. auto.
Qed.

End SampleProductsFacts.

Section SampleProductsCleaned.
Import Py MultiSourceScraper SampleProducts.
Open Scope string_scope.
Open Scope list_scope.
Open Scope Z_scope.

Variable chance : Chance.
Variable world : World.

Lemma sample_lists_normalized :
  Forall (fun company => DataProcessor.clean_company_name (Some company) = company)
         companies /\
  Forall (fun city =>
            DataProcessor.clean_location (Some city) = city /\
            In (DataProcessor.extract_state city) DataProcessor.states /\
            exists town, city = town ++ u ", " ++ DataProcessor.extract_state city)
         cities.
Proof.
  split.
  - repeat (apply Forall_cons; [reflexivity|]). apply Forall_nil.
  - assert (Hcity : forall town state,
              In state DataProcessor.states ->
              DataProcessor.clean_location (Some (town ++ u ", " ++ state))
                = town ++ u ", " ++ state ->
              DataProcessor.extract_state (town ++ u ", " ++ state) = state ->
              DataProcessor.clean_location (Some (town ++ u ", " ++ state))
                = town ++ u ", " ++ state /\
              In (DataProcessor.extract_state (town ++ u ", " ++ state))
                 DataProcessor.states /\
              exists town', town ++ u ", " ++ state
                            = town' ++ u ", "
                              ++ DataProcessor.extract_state (town ++ u ", " ++ state)).
    { intros town state Hin Hclean Hstate. rewrite Hstate. eauto. }
    repeat apply Forall_cons; try apply Forall_nil.
    + apply (Hcity (u "Mumbai") (u "Maharashtra")); [vm_compute; tauto|reflexivity..].
    + apply (Hcity (u "Delhi") (u "Delhi")); [vm_compute; tauto|reflexivity..].
    + apply (Hcity (u "Bangalore") (u "Karnataka")); [vm_compute; tauto|reflexivity..].
    + apply (Hcity (u "Ahmedabad") (u "Gujarat")); [vm_compute; tauto|reflexivity..].
    + apply (Hcity (u "Chennai") (u "Tamil Nadu")); [vm_compute; tauto|reflexivity..].
    + apply (Hcity (u "Pune") (u "Maharashtra")); [vm_compute; tauto|reflexivity..].
Qed.

(** X19.  With a generator that keeps Python's promises, the company and
    the location of every sample record are already in cleaned form:
    [clean_company_name] and [clean_location] return them unchanged, and
    [extract_state] finds in the location one of the listed states, the
    part written after the comma. *)
Theorem add_sample_products_normalized (self : Scraper) (draws : nat) (category : str)
    (count : Z) :
  fair chance ->
  exists added,
    products (fst (add_sample_products chance world self draws category count))
      = products self ++ added /\
    Forall (fun p =>
              DataProcessor.clean_company_name (Some (company p)) = company p /\
              DataProcessor.clean_location (Some (location p)) = location p /\
              In (DataProcessor.extract_state (location p)) DataProcessor.states /\
              exists town,
                location p = town ++ u ", " ++ DataProcessor.extract_state (location p))
           added.
Proof.
  intros Hfair. unfold add_sample_products.
  set (templates := match dict_get product_templates category with
                    | Some templates => templates
                    | None => []
                    end).
  destruct sample_lists_normalized as [Hcompanies Hcities].
  rewrite Forall_forall in Hcompanies, Hcities.
  match goal with
  | |- exists added, _ /\ Forall ?Q added =>
    destruct (@sample_loop_adds chance world Q templates category) with
      (rounds := Z.to_nat (Z.min count (Z.of_nat (List.length templates) * 4)))
      (self := self) (draws := draws) as (added & Hp & _ & Hlen & Hall)
  end.
  - intros self0 draws0 p Hp.
    destruct (sample_product_adds chance world templates category self0 draws0)
      as (p' & Hp' & _ & _ & _ & _ & (t3 & Hco) & (t4 & Hl) & _).
    rewrite Hp in Hp'. apply app_inv_head in Hp'. inversion Hp'. subst p'.
    assert (Hc : In (company p) companies)
      by (rewrite Hco; apply choice_In; [exact Hfair|discriminate]).
    assert (Hcity : In (location p) cities)
      by (rewrite Hl; apply choice_In; [exact Hfair|discriminate]).
    split; [now apply Hcompanies|]. now apply Hcities.
  - exists added. auto.
Qed.

End SampleProductsCleaned.

(** ** Instances with their preconditions met *)

Section ExtraWitnesses.
Import Py MultiSourceScraper SampleProducts.
Open Scope string_scope.
Open Scope list_scope.
Open Scope Z_scope.

Lemma least_chance_fair : fair least_chance.
Proof.
  split.
  - intros t n Hn. exact Hn.
  - intros t. split; reflexivity.
Qed.

Lemma extract_products_cap_prefix_witness :
  Prefix
    (products (snd (extract_products sample_world new_scraper sample_links
                      (u "industrial machinery") (u "TradeIndia") 1)))
    (products (snd (extract_products sample_world new_scraper sample_links
                      (u "industrial machinery") (u "TradeIndia") 15))).
Proof.
  apply (@extract_products_cap_prefix sample_world new_scraper sample_links
           (u "industrial machinery") (u "TradeIndia") 1 15).
  lia.
Defined.

Lemma scrape_category_bounded_witness :
  0 <= fst (scrape_category sample_world new_scraper (u "safety equipment")
              [u "tradeindia"; u "alibaba"; u "dhgate"] 15)
    <= 15 * Z.of_nat (List.length [u "tradeindia"; u "alibaba"; u "dhgate"]) /\
  Prefix (products new_scraper)
         (products (snd (scrape_category sample_world new_scraper (u "safety equipment")
                           [u "tradeindia"; u "alibaba"; u "dhgate"] 15))).
Proof.
  apply (@scrape_category_bounded sample_world new_scraper (u "safety equipment")
           [u "tradeindia"; u "alibaba"; u "dhgate"] 15).
  lia.
Defined.

Lemma add_sample_products_records_witness :
  exists added,
    products (fst (add_sample_products least_chance sample_world new_scraper 0
                     (u "safety equipment") 35))
      = products new_scraper ++ added /\
    Forall (fun p =>
              source p = u "Enhanced Sample Data" /\
              MultiSourceScraper.category p = u "safety equipment" /\
              In (company p) companies /\
              In (location p) cities /\
              (exists prefix template templates,
                 In prefix prefixes /\
                 dict_get product_templates (u "safety equipment") = Some templates /\
                 In template templates /\
                 name p = strip (prefix ++ u " " ++ template)) /\
              (exists n, 1000 <= n <= 500000 /\ price p = u "₹ " ++ format_grouped n) /\
              (exists n, 1000 <= n <= 500000 /\ price_numeric p = Some (float_of_int n)))
           added.
Proof.
  apply (@add_sample_products_records least_chance sample_world new_scraper 0%nat
           (u "safety equipment") 35).
  exact least_chance_fair.
Defined.

Lemma add_sample_products_cleaned_price_witness :
  exists added,
    products (fst (add_sample_products least_chance sample_world new_scraper 0
                     (u "safety equipment") 35))
      = products new_scraper ++ added /\
    Forall (fun p =>
              DataProcessor.categorize_price (DataProcessor.clean_price (Some (price p)))
                = u "Budget (< ₹1K)" /\
              exists n, 1000 <= n /\ price_numeric p = Some (float_of_int n))
           added.
Proof.
  apply (@add_sample_products_cleaned_price least_chance sample_world new_scraper 0%nat
           (u "safety equipment") 35).
  exact least_chance_fair.
Defined.

Lemma add_sample_products_normalized_witness :
  exists added,
    products (fst (add_sample_products least_chance sample_world new_scraper 0
                     (u "safety equipment") 35))
      = products new_scraper ++ added /\
    Forall (fun p =>
              DataProcessor.clean_company_name (Some (company p)) = company p /\
              DataProcessor.clean_location (Some (location p)) = location p /\
              In (DataProcessor.extract_state (location p)) DataProcessor.states /\
              exists town,
                location p = town ++ u ", " ++ DataProcessor.extract_state (location p))
           added.
Proof.
  apply (@add_sample_products_normalized least_chance sample_world new_scraper 0%nat
           (u "safety equipment") 35).
  exact least_chance_fair.
Defined.

Lemma clean_location_idempotent_witness :
  plain (DataProcessor.clean_location (Some (u "  pune ,   MAHARASHTRA "))) = true /\
  DataProcessor.clean_location
    (Some (DataProcessor.clean_location (Some (u "  pune ,   MAHARASHTRA "))))
  = DataProcessor.clean_location (Some (u "  pune ,   MAHARASHTRA ")).
Proof.
  apply (@clean_location_idempotent (Some (u "  pune ,   MAHARASHTRA "))).
  reflexivity.
Defined.

Lemma extract_keywords_bounds_witness :
  Subseq (DataProcessor.extract_keywords (Some (u "Heavy Duty CNC Lathe for the Workshop")))
         (split_ws (lower (u "Heavy Duty CNC Lathe for the Workshop"))) /\
  Forall (fun word => forallb (fun c => plain_char c && negb (is_upper c)) word = true)
         (DataProcessor.extract_keywords (Some (u "Heavy Duty CNC Lathe for the Workshop"))).
Proof.
  apply (proj2 (proj2 (proj2 (extract_keywords_bounds
                                (Some (u "Heavy Duty CNC Lathe for the Workshop")))))
           (u "Heavy Duty CNC Lathe for the Workshop") eq_refl).
  reflexivity.
Defined.

Lemma clean_company_name_only_deletes_witness :
  Subseq (lower (DataProcessor.clean_company_name (Some (u " ACME tools Pvt Ltd. "))))
         (lower (u " ACME tools Pvt Ltd. ")).
Proof.
  apply (proj2 (proj2 (clean_company_name_only_deletes (Some (u " ACME tools Pvt Ltd. "))))
           (u " ACME tools Pvt Ltd. ") eq_refl).
  reflexivity.
Defined.

Lemma nearby_price_parse_witness :
  match Re.findall_grouped
          (fst (nearby_price (Build_Tag None (u "View") (u "/p/1")
                                (Some [u "View"; u " ₹ 1,23,456 onwards "])))) with
  | [] => snd (nearby_price (Build_Tag None (u "View") (u "/p/1")
                               (Some [u "View"; u " ₹ 1,23,456 onwards "]))) = None
  | first :: _ =>
    snd (nearby_price (Build_Tag None (u "View") (u "/p/1")
                         (Some [u "View"; u " ₹ 1,23,456 onwards "]))) = None
    <-> existsb is_digit first = false
  end.
Proof.
  apply (proj2 (nearby_price_parse (Build_Tag None (u "View") (u "/p/1")
                                      (Some [u "View"; u " ₹ 1,23,456 onwards "])))).
  reflexivity.
Defined.

(** The sample run of [main]: 35 records are asked for each category, and
    the eight templates of the plastics category allow 32 only. *)
Lemma sample_rounds_of_main :
  map (fun category => sample_rounds (u category) 35)
      [ "industrial machinery"; "electronic components"; "textile fabrics";
        "plastic raw materials"; "safety equipment"; "furniture" ]
  = [35; 35; 35; 32; 35; 0]%nat.
Proof. reflexivity. Qed.

(** The first record of a sample run with the least draws. *)
Lemma add_sample_products_first_record :
  map (fun p => (name p, price p, price_numeric p, rating p, url p))
      (products (fst (add_sample_products least_chance sample_world new_scraper 0
                        (u "safety equipment") 1)))
  = [ (u "Heavy Duty Safety Helmet", u "₹ 1,000", Some 1000%float, None,
       u "https://example.com/product/1000") ].
Proof. reflexivity. Qed.

End ExtraWitnesses.
